(** * Crossmint support bot: the retrieval-augmented answer pipeline

    A shallow embedding of [backend/main.py]: the Retriever
    ([semantic_search]), the two prompt variants and the orchestrator
    ([generate_response], [fallback_response]) and the boundary operation
    ([ask_question]), followed by the properties of the pipeline.

    Conventions of the embedding.
    - A Python [str] is a [string]; every character stands for the code
      point of the same number (0..255).
    - A Python [float] is a binary64 [float] (round to nearest even), an
      [int] is a [Z].
    - A [dict] with string keys is a [gmap string _]; the fixed-shape dicts
      and the pydantic models of the source are records.
    - A computation that may raise returns a [result]; a computation that
      also calls a collaborator (embedder, vector index, completion service)
      lives in the monad [M], which records the calls in order.
    - Only [Exception] subclasses are modelled; text printed to the standard
      output is not. *)

From Stdlib Require Import ZArith Floats Ascii String List Lia.
From stdpp Require Import base option list gmap strings pretty.

Set Warnings "-inexact-float".

Local Open Scope string_scope.
Local Open Scope Z_scope.
Local Open Scope list_scope.

(** ** Python values and exceptions *)

Module Py.

(** An exception: its class and [str(e)]. *)
Record exn := Exception { exn_class : string; exn_str : string }.

Inductive result (A : Type) : Type :=
| Ok (a : A)
| Raise (e : exn).
Arguments Ok {A} a.
Arguments Raise {A} e.

Definition rbind {A B} (r : result A) (k : A -> result B) : result B :=
  match r with
  | Ok a => k a
  | Raise e => Raise e
  end.

(** The scalar values a vector-store metadata mapping may hold. *)
Inductive val :=
| VStr (s : string)
| VInt (z : Z)
| VFloat (f : float)
| VBool (b : bool).

Definition nl : string := String (ascii_of_nat 10) EmptyString.

(** [c.isspace()] for the code points below 256. *)
Definition is_space (c : ascii) : bool :=
  let n := nat_of_ascii c in
  ((9 <=? n) && (n <=? 13) || (28 <=? n) && (n <=? 32)
   || (n =? 133) || (n =? 160))%nat.

Fixpoint lstrip (s : string) : string :=
  match s with
  | EmptyString => EmptyString
  | String c s' => if is_space c then lstrip s' else s
  end.

Fixpoint rstrip (s : string) : string :=
  match s with
  | EmptyString => EmptyString
  | String c s' =>
      match rstrip s' with
      | EmptyString => if is_space c then EmptyString else String c EmptyString
      | r => String c r
      end
  end.

(** [s.strip()] *)
Definition strip (s : string) : string := rstrip (lstrip s).

(** Truth value of a [str]. *)
Definition truthy (s : string) : bool :=
  match s with
  | EmptyString => false
  | String _ _ => true
  end.

Definition index_error : exn :=
  Exception "IndexError" "list index out of range".

(** [l[i]] for a list and a non-negative index. *)
Definition getitem {A} (l : list A) (i : nat) : result A :=
  match l !! i with
  | Some x => Ok x
  | None => Raise index_error
  end.

(** [sep.join(parts)] where the parts are already known to be strings. *)
Fixpoint join_str (sep : string) (parts : list string) : string :=
  match parts with
  | [] => ""
  | [p] => p
  | p :: rest => p +:+ sep +:+ join_str sep rest
  end.

Definition nat_to_string (n : nat) : string := pretty n.

(** The position of the first [None] in a list of optional strings. *)
Fixpoint first_none (parts : list (option string)) (i : nat) : option nat :=
  match parts with
  | [] => None
  | None :: _ => Some i
  | Some _ :: rest => first_none rest (S i)
  end.

(** [sep.join(parts)]: a [TypeError] when an item is [None]. *)
Definition join (sep : string) (parts : list (option string)) : result string :=
  match first_none parts 0 with
  | Some i =>
      Raise (Exception "TypeError"
               ("sequence item " +:+ nat_to_string i
                +:+ ": expected str instance, NoneType found"))
  | None => Ok (join_str sep (omap id parts))
  end.

(** [s1] occurs in [s2]. *)
Definition contains (s2 s1 : string) : Prop :=
  exists pre post, s2 = pre +:+ s1 +:+ post.

End Py.
Export Py.

(** ** Data model of [main.py] *)

(** The pydantic models. *)
Record QueryRequest := {
  query : string;
  max_results : option Z
}.

Record Source := {
  title : string;
  url : string;
  relevance_score : float
}.

Record QueryResponse := {
  resp_query : string;
  response : string;
  sources : list Source;
  timestamp : string;
  method : string
}.

(** The three values [method] takes. *)
Definition method_RAG : string := "RAG (Full Knowledge Base)".
Definition method_Fallback : string := "Fallback (General Knowledge)".
Definition method_Error : string := "Error".

(** What the vector index answers: one inner list per query vector, for
    each of the three included fields.  A stored record without document
    text or without metadata is reported as [None] at its position. *)
Record QueryResult := {
  documents : list (list (option string));
  metadatas : list (list (option (gmap string val)));
  distances : list (list float)
}.

(** A retrieved snippet: the dict with keys ['content'], ['metadata'] and
    ['similarity'] that [semantic_search] builds. *)
Record Doc := {
  content : option string;
  metadata : option (gmap string val);
  similarity : float
}.

(** A chat message and the completion service's answer (the message content
    of each choice, in order). *)
Record message := {
  role : string;
  msg_content : string
}.

Record ChatCompletion := {
  choices : list (option string)
}.

(** ** Collaborators and the calls made to them *)

Inductive event :=
| EvEncode (sentences : list string)
| EvQuery (query_embeddings : list (list float)) (n_results : Z)
          (include : list string)
| EvCreate (model : string) (messages : list message) (temperature : float)
           (max_tokens : Z).

(** The module's global resources and its environment, as one request sees
    them.  [embedding_model] and [chroma_collection] are [None] when the
    resource is not available; each collaborator answers or raises. *)
Record World := {
  getenv : string -> option string;
  embedding_model : option (list string -> result (list (list float)));
  chroma_collection :
    option (list (list float) -> Z -> list string -> result QueryResult);
  openai_create : string -> list message -> float -> Z -> result ChatCompletion;
  now_isoformat : string
}.

(** Computations that call collaborators: the calls made, oldest first, and
    the outcome. *)
Definition M (A : Type) : Type := list event * result A.

Definition ret {A} (a : A) : M A := ([], Ok a).

Definition bind {A B} (m : M A) (k : A -> M B) : M B :=
  match m with
  | (t, Ok a) => let '(t', r) := k a in ((t ++ t')%list, r)
  | (t, Raise e) => (t, Raise e)
  end.

Definition lift {A} (r : result A) : M A := ([], r).

(** A collaborator call: recorded, then answered. *)
Definition call {A} (ev : event) (r : result A) : M A := ([ev], r).

(** [try: body  except Exception as e: handler e] *)
Definition try_except {A} (body : M A) (handler : exn -> M A) : M A :=
  match body with
  | (t, Ok a) => (t, Ok a)
  | (t, Raise e) => let '(t', r) := handler e in ((t ++ t')%list, r)
  end.

Notation "'let*' x ':=' m 'in' k" := (bind m (fun x => k))
  (at level 10, x name, m at level 100, k at level 200).
Notation "'let*' ' p ':=' m 'in' k" :=
  (bind m (fun x => match x with p => k end))
  (at level 10, p pattern, m at level 100, k at level 200).

Definition calls {A} (m : M A) : list event := fst m.
Definition outcome {A} (m : M A) : result A := snd m.

(** ** The Retriever *)

(** The body of the formatting loop of [semantic_search] for the positions
    [idxs], appending to [formatted_results]. *)
Fixpoint format_results (results : QueryResult) (idxs : list nat)
    (formatted_results : list Doc) : result (list Doc) :=
  match idxs with
  | [] => Ok formatted_results
  | i :: rest =>
      rbind (rbind (getitem (documents results) 0) (fun b => getitem b i)) (fun c =>
      rbind (rbind (getitem (metadatas results) 0) (fun b => getitem b i)) (fun m =>
      rbind (rbind (getitem (distances results) 0) (fun b => getitem b i)) (fun d =>
      format_results results rest
        (formatted_results ++
           [{| content := c; metadata := m; similarity := (1 - d)%float |}])%list)))
  end.

Definition include_fields : list string :=
  ["documents"; "metadatas"; "distances"].

(** [semantic_search(query, n_results)] *)
Definition semantic_search (w : World) (query : string) (n_results : Z)
    : M (list Doc) :=
  match chroma_collection w, embedding_model w with
  | Some collection_query, Some encode =>
      try_except
        (let* query_embedding := call (EvEncode [query]) (encode [query]) in
         let* results :=
           call (EvQuery query_embedding n_results include_fields)
                (collection_query query_embedding n_results include_fields) in
         let* first_batch := lift (getitem (documents results) 0) in
         lift (format_results results (seq 0 (length first_batch)) []))
        (fun e => ret [])
  | _, _ => ret []
  end.

(** ** Prompts *)

Definition persona : string :=
  "You are a helpful customer support assistant for Crossmint, a platform for integrating wallets, stablecoins, and blockchain primitives.".

Definition grounded_system_prompt : string :=
  persona +:+ nl +:+ nl
  +:+ "Use the provided documentation context to answer the user's question accurately and helpfully. If the context doesn't contain enough information to fully answer the question, say so and provide what information you can from the context."
  +:+ nl +:+ nl
  +:+ "Always base your answer primarily on the provided context. Be specific and include relevant details from the documentation.".

Definition unaided_system_prompt : string :=
  persona +:+ nl +:+ nl
  +:+ "Provide helpful answers about Crossmint's services based on your general knowledge. Always recommend checking the official Crossmint documentation at docs.crossmint.com for the most up-to-date information.".

Definition user_prompt (context query : string) : string :=
  "Context from Crossmint documentation:" +:+ nl
  +:+ context +:+ nl +:+ nl
  +:+ "Question: " +:+ query +:+ nl +:+ nl
  +:+ "Please provide a helpful answer based on the documentation context above.".

Definition grounded_messages (context query : string) : list message :=
  [ {| role := "system"; msg_content := grounded_system_prompt |};
    {| role := "user"; msg_content := user_prompt context query |} ].

Definition unaided_messages (query : string) : list message :=
  [ {| role := "system"; msg_content := unaided_system_prompt |};
    {| role := "user"; msg_content := query |} ].

(** ** Model validation *)

(** A [str] field of a pydantic model accepts a string.  What it does with
    another scalar depends on the pydantic release; here it is refused, and
    no property below relies on that. *)
Definition validation_error (model field : string) : exn :=
  Exception "ValidationError"
    ("1 validation error for " +:+ model +:+ nl +:+ field +:+ nl
     +:+ "  Input should be a valid string").

Definition str_field (model field : string) (v : val) : result string :=
  match v with
  | VStr s => Ok s
  | _ => Raise (validation_error model field)
  end.

(** [Source(title=t, url=u, relevance_score=s)] *)
Definition new_Source (t u : val) (s : float) : result Source :=
  rbind (str_field "Source" "title" t) (fun t' =>
  rbind (str_field "Source" "url" u) (fun u' =>
  Ok {| title := t'; url := u'; relevance_score := s |})).

(** [QueryResponse(query=q, response=r, ...)] where [r] may be [None]. *)
Definition new_QueryResponse (q : string) (r : option string)
    (srcs : list Source) (ts meth : string) : result QueryResponse :=
  match r with
  | Some text =>
      Ok {| resp_query := q; response := text; sources := srcs;
            timestamp := ts; method := meth |}
  | None => Raise (validation_error "QueryResponse" "response")
  end.

(** [d.get(key, dflt)] on a metadata value that may be [None]. *)
Definition metadata_get (d : option (gmap string val)) (key : string)
    (dflt : val) : result val :=
  match d with
  | Some m => Ok (default dflt (m !! key))
  | None =>
      Raise (Exception "AttributeError"
               "'NoneType' object has no attribute 'get'")
  end.

Definition default_title : string := "Crossmint Documentation".
Definition docs_url : string := "https://docs.crossmint.com".

(** [response.choices[0].message.content] *)
Definition first_content (c : ChatCompletion) : result (option string) :=
  getitem (choices c) 0.

(** ** The orchestrator *)

(** [fallback_response(query)] *)
Definition fallback_response (w : World) (query : string) : M QueryResponse :=
  try_except
    (let* completion :=
       call (EvCreate "gpt-3.5-turbo" (unaided_messages query) 0.1%float 600)
            (openai_create w "gpt-3.5-turbo" (unaided_messages query)
               0.1%float 600) in
     let* text := lift (first_content completion) in
     lift (new_QueryResponse query text
             [ {| title := "General Knowledge"; url := docs_url;
                  relevance_score := 0.5%float |} ]
             (now_isoformat w) method_Fallback))
    (fun e =>
       ret {| resp_query := query;
              response :=
                "I'm having trouble generating a response right now. Error: "
                +:+ exn_str e
                +:+ ". Please try again or check the Crossmint documentation directly.";
              sources := [];
              timestamp := now_isoformat w;
              method := method_Error |}).

(** The loop of [generate_response] over the retrieved snippets, appending
    to [context_parts] and [sources]. *)
Fixpoint collect_context (relevant_docs : list Doc)
    (context_parts : list (option string)) (srcs : list Source)
    : result (list (option string) * list Source) :=
  match relevant_docs with
  | [] => Ok (context_parts, srcs)
  | doc :: rest =>
      rbind (metadata_get (metadata doc) "title" (VStr default_title)) (fun t =>
      rbind (metadata_get (metadata doc) "url" (VStr docs_url)) (fun u =>
      rbind (new_Source t u (similarity doc)) (fun src =>
      collect_context rest (context_parts ++ [content doc])%list
        (srcs ++ [src])%list)))
  end.

(** [generate_response(query)] *)
Definition generate_response (w : World) (query : string) : M QueryResponse :=
  let* relevant_docs := semantic_search w query 5 in
  match relevant_docs with
  | [] => fallback_response w query
  | _ :: _ =>
      let* '(context_parts, srcs) :=
        lift (collect_context relevant_docs [] []) in
      let* context := lift (join (nl +:+ nl) context_parts) in
      try_except
        (let* completion :=
           call (EvCreate "gpt-3.5-turbo" (grounded_messages context query)
                   0.1%float 800)
                (openai_create w "gpt-3.5-turbo"
                   (grounded_messages context query) 0.1%float 800) in
         let* text := lift (first_content completion) in
         lift (new_QueryResponse query text srcs (now_isoformat w) method_RAG))
        (fun e =>
           ret {| resp_query := query;
                  response :=
                    "I encountered an error generating a response: "
                    +:+ exn_str e +:+ ". Please try again.";
                  sources := srcs;
                  timestamp := now_isoformat w;
                  method := method_Error |})
  end.

(** ** The boundary operation *)

(** What the caller of the endpoint observes: the response model, or an
    [HTTPException]. *)
Inductive reply :=
| Returned (r : QueryResponse)
| HTTPException (status_code : Z) (detail : string).

(** [not os.getenv(name)] *)
Definition env_missing (w : World) (name : string) : bool :=
  match getenv w name with
  | Some v => negb (truthy v)
  | None => true
  end.

(** [ask_question(request)]: the collaborator calls made and the reply. *)
Definition ask_question (w : World) (request : QueryRequest)
    : list event * reply :=
  if negb (truthy (strip (query request))) then
    ([], HTTPException 400 "Query cannot be empty")
  else if env_missing w "OPENAI_API_KEY" then
    ([], HTTPException 500 "OpenAI API key not configured")
  else
    match generate_response w (strip (query request)) with
    | (t, Ok r) => (t, Returned r)
    | (t, Raise e) =>
        (t, HTTPException 500 ("Error processing query: " +:+ exn_str e))
    end.

(** ** Start-up and the health probe *)

(** The loaded sentence-embedding model: [encode(...).tolist()]. *)
Definition Embedder : Type := list string -> result (list (list float)).

(** A collection handle: its [query] and what [count()] answers. *)
Record Collection := {
  coll_query : list (list float) -> Z -> list string -> result QueryResult;
  coll_count : result Z
}.

(** A vector-store client: the names [list_collections()] gives and
    [get_collection(name)]. *)
Record Client := {
  list_collections : result (list string);
  get_collection : string -> result Collection
}.

(** The module's three global variables. *)
Record Globals := {
  g_embedding_model : option Embedder;
  g_chroma_client : option Client;
  g_chroma_collection : option Collection
}.

(** What the two constructors called at start-up answer. *)
Record Startup := {
  SentenceTransformer : string -> result Embedder;
  PersistentClient : string -> result Client
}.

(** The start-up half of [lifespan]: the globals as the requests find
    them, or the exception that stops the server from starting. *)
Definition lifespan (s : Startup) : result Globals :=
  rbind (SentenceTransformer s "all-MiniLM-L6-v2") (fun model =>
  match
    rbind (PersistentClient s "./chroma_db_free") (fun client =>
    rbind (list_collections client) (fun collections =>
    rbind (get_collection client "crossmint_docs") (fun collection =>
    rbind (coll_count collection) (fun doc_count =>
    Ok (client, collection)))))
  with
  | Ok (client, collection) =>
      Ok {| g_embedding_model := Some model;
            g_chroma_client := Some client;
            g_chroma_collection := Some collection |}
  | Raise e =>
      Ok {| g_embedding_model := Some model;
            g_chroma_client := None;
            g_chroma_collection := None |}
  end).

Record HealthResponse := {
  status : string;
  rag_available : bool;
  document_count : option Z
}.

(** [health_check()] *)
Definition health_check (g : Globals) : HealthResponse :=
  let rag :=
    match g_chroma_collection g with
    | Some _ => true
    | None => false
    end in
  let doc_count :=
    match g_chroma_collection g with
    | Some collection =>
        match coll_count collection with
        | Ok n => Some n
        | Raise _ => None
        end
    | None => None
    end in
  {| status := "healthy"; rag_available := rag; document_count := doc_count |}.

(** The world a request runs in, given the globals. *)
Definition request_world (g : Globals) (env : string -> option string)
    (create : string -> list message -> float -> Z -> result ChatCompletion)
    (now : string) : World :=
  {| getenv := env;
     embedding_model := g_embedding_model g;
     chroma_collection := option_map coll_query (g_chroma_collection g);
     openai_create := create;
     now_isoformat := now |}.

(** The same world with the index handle unset. *)
Definition without_index (w : World) : World :=
  {| getenv := getenv w;
     embedding_model := embedding_model w;
     chroma_collection := None;
     openai_create := openai_create w;
     now_isoformat := now_isoformat w |}.

(** The index answer cut down to its first batch. *)
Definition first_batch_only (results : QueryResult) : QueryResult :=
  {| documents := take 1 (documents results);
     metadatas := take 1 (metadatas results);
     distances := take 1 (distances results) |}.

(** ** Auxiliary notions used in the statements *)

(** The snippets obtained by pairing documents, metadata and distances by
    position, as far as all three lists reach. *)
Fixpoint zip_docs (ds : list (option string))
    (ms : list (option (gmap string val))) (ss : list float) : list Doc :=
  match ds, ms, ss with
  | c :: ds', m :: ms', d :: ss' =>
      {| content := c; metadata := m; similarity := (1 - d)%float |}
      :: zip_docs ds' ms' ss'
  | _, _, _ => []
  end.

(** What [semantic_search] keeps of an index answer. *)
Definition formatted (results : QueryResult) : list Doc :=
  match rbind (getitem (documents results) 0)
              (fun b => format_results results (seq 0 (length b)) []) with
  | Ok docs => docs
  | Raise _ => []
  end.

(** A metadata entry is absent or a string. *)
Definition str_or_absent (v : option val) : bool :=
  match v with
  | None | Some (VStr _) => true
  | Some _ => false
  end.

(** A snippet whose metadata is a mapping with textual or absent title and
    url. *)
Definition meta_ok (d : Doc) : bool :=
  match metadata d with
  | Some m => str_or_absent (m !! "title") && str_or_absent (m !! "url")
  | None => false
  end.

(** A snippet that also carries a document text. *)
Definition doc_ok (d : Doc) : bool :=
  match content d with
  | Some _ => meta_ok d
  | None => false
  end.

(** The source entry [s] is the one built for the snippet [d]. *)
Definition source_for (d : Doc) (s : Source) : Prop :=
  exists m, metadata d = Some m
    /\ VStr (title s) = default (VStr default_title) (m !! "title")
    /\ VStr (url s) = default (VStr docs_url) (m !! "url")
    /\ relevance_score s = similarity d.

(** The text the [try] block of the two completion stages obtains from the
    completion service's answer, or the exception raised on the way. *)
Definition completion_text (r : result ChatCompletion) : result string :=
  rbind r (fun c =>
  rbind (first_content c) (fun o =>
  match o with
  | Some text => Ok text
  | None => Raise (validation_error "QueryResponse" "response")
  end)).

(** The completion request the pipeline makes for [msgs], and its answer. *)
Definition create_event (msgs : list message) (max_tokens : Z) : event :=
  EvCreate "gpt-3.5-turbo" msgs 0.1%float max_tokens.

Definition create_answer (w : World) (msgs : list message) (max_tokens : Z)
    : result ChatCompletion :=
  openai_create w "gpt-3.5-turbo" msgs 0.1%float max_tokens.

Definition general_knowledge : Source :=
  {| title := "General Knowledge"; url := docs_url;
     relevance_score := 0.5%float |}.

Definition error_response_grounded (w : World) (q : string) (e : exn)
    (srcs : list Source) : QueryResponse :=
  {| resp_query := q;
     response := "I encountered an error generating a response: "
                 +:+ exn_str e +:+ ". Please try again.";
     sources := srcs;
     timestamp := now_isoformat w;
     method := method_Error |}.

Definition error_response_unaided (w : World) (q : string) (e : exn)
    : QueryResponse :=
  {| resp_query := q;
     response := "I'm having trouble generating a response right now. Error: "
                 +:+ exn_str e
                 +:+ ". Please try again or check the Crossmint documentation directly.";
     sources := [];
     timestamp := now_isoformat w;
     method := method_Error |}.

Definition rag_response (w : World) (q text : string) (srcs : list Source)
    : QueryResponse :=
  {| resp_query := q; response := text; sources := srcs;
     timestamp := now_isoformat w; method := method_RAG |}.

Definition fallback_ok_response (w : World) (q text : string)
    : QueryResponse :=
  {| resp_query := q; response := text; sources := [general_knowledge];
     timestamp := now_isoformat w; method := method_Fallback |}.

(** The call is a completion request. *)
Definition is_create (ev : event) : bool :=
  match ev with
  | EvCreate _ _ _ _ => true
  | _ => false
  end.

(** The float [x] lies in the closed unit interval. *)
Definition in_unit (x : float) : bool := ((0 <=? x) && (x <=? 1))%float.

(** The same on the specification of binary64 values: [SF_one] is the
    float 1. *)
Definition SF_one : spec_float := S754_finite false 4503599627370496 (-52).

Definition SF_in_unit (x : spec_float) : bool :=
  SFleb (S754_zero false) x && SFleb x SF_one.

(** ** Scenarios *)

Definition env_with_key (name : string) : option string :=
  if String.eqb name "OPENAI_API_KEY" then Some "sk-test" else None.

Definition env_without_key (name : string) : option string := None.

(** A world whose embedder always answers, whose index (when there is one)
    always gives [index], and whose completion service always gives
    [answer]. *)
Definition scenario (env : string -> option string)
    (index : option QueryResult) (answer : result ChatCompletion) : World :=
  {| getenv := env;
     embedding_model := Some (fun _ => Ok [[0.25%float; 0.5%float]]);
     chroma_collection := option_map (fun r _ _ _ => Ok r) index;
     openai_create := fun _ _ _ _ => answer;
     now_isoformat := "2024-05-01T12:00:00" |}.

Definition minting_guide : gmap string val :=
  {[ "title" := VStr "Minting Guide";
     "url" := VStr "https://docs.crossmint.com/minting" ]}.

(** Metadata as the rebuild script stores it for a chunk without title and
    url. *)
Definition untitled_chunk : gmap string val :=
  {[ "source" := VStr "api.md"; "topic" := VStr "general";
     "chunk_index" := VInt 3 ]}.

Definition two_hits : QueryResult :=
  {| documents := [[Some "Mint with the API."; Some "See the reference."]];
     metadatas := [[Some minting_guide; Some untitled_chunk]];
     distances := [[0.09%float; 0.23%float]] |}.

(** An index whose metric is not bounded by one. *)
Definition far_hit : QueryResult :=
  {| documents := [[Some "Unrelated text."]];
     metadatas := [[Some minting_guide]];
     distances := [[1.5%float]] |}.

Definition near_hit : QueryResult :=
  {| documents := [[Some "Mint with the API."]];
     metadatas := [[Some minting_guide]];
     distances := [[0.15%float]] |}.

(** Two documents, one metadata entry. *)
Definition short_metadata : QueryResult :=
  {| documents := [[Some "Mint with the API."; Some "See the reference."]];
     metadatas := [[Some minting_guide]];
     distances := [[0.09%float; 0.23%float]] |}.

(** A stored record without metadata. *)
Definition bare_hit : QueryResult :=
  {| documents := [[Some "Mint with the API."]];
     metadatas := [[None]];
     distances := [[0.09%float]] |}.

Definition answer_ok : result ChatCompletion :=
  Ok {| choices := [Some "Use the /mint endpoint"] |}.

Definition rate_limited : exn :=
  Exception "RateLimitError" "Rate limit reached for gpt-3.5-turbo".

Definition w_rag : World := scenario env_with_key (Some two_hits) answer_ok.
Definition w_rag_failing : World :=
  scenario env_with_key (Some two_hits) (Raise rate_limited).
Definition w_no_index : World := scenario env_with_key None answer_ok.
Definition w_no_index_failing : World :=
  scenario env_with_key None (Raise rate_limited).
Definition w_no_key : World := scenario env_without_key (Some two_hits) answer_ok.
Definition w_far : World := scenario env_with_key (Some far_hit) answer_ok.
Definition w_near : World := scenario env_with_key (Some near_hit) answer_ok.
Definition w_short : World :=
  scenario env_with_key (Some short_metadata) answer_ok.
Definition w_bare : World := scenario env_with_key (Some bare_hit) answer_ok.

(** An embedder that raises, and an index that raises. *)
Definition w_embed_failing : World :=
  {| getenv := env_with_key;
     embedding_model :=
       Some (fun _ => Raise (Exception "RuntimeError" "CUDA out of memory"));
     chroma_collection := Some (fun _ _ _ => Ok two_hits);
     openai_create := fun _ _ _ _ => answer_ok;
     now_isoformat := "2024-05-01T12:00:00" |}.

Definition w_index_failing : World :=
  {| getenv := env_with_key;
     embedding_model := Some (fun _ => Ok [[0.25%float; 0.5%float]]);
     chroma_collection :=
       Some (fun _ _ _ =>
               Raise (Exception "InternalError" "database is locked"));
     openai_create := fun _ _ _ _ => answer_ok;
     now_isoformat := "2024-05-01T12:00:00" |}.

Definition nft_question : QueryRequest :=
  {| query := "  How do I create an NFT? "; max_results := Some 3 |}.

Definition blank_question : QueryRequest :=
  {| query := "   "; max_results := None |}.

(** Start-up scenarios. *)
Definition good_embedder : Embedder := fun _ => Ok [[0.25%float; 0.5%float]].

Definition docs_collection : Collection :=
  {| coll_query := fun _ _ _ => Ok two_hits; coll_count := Ok 42 |}.


Definition client_with (c : Collection) : Client :=
  {| list_collections := Ok ["crossmint_docs"];
     get_collection := fun name =>
       if String.eqb name "crossmint_docs" then Ok c
       else Raise (Exception "ValueError" "Collection does not exist") |}.


Definition startup_with (c : Client) : Startup :=
  {| SentenceTransformer := fun _ => Ok good_embedder;
     PersistentClient := fun _ => Ok c |}.

Definition startup_no_model : Startup :=
  {| SentenceTransformer := fun _ =>
       Raise (Exception "OSError" "model not found");
     PersistentClient := fun _ => Ok (client_with docs_collection) |}.

Definition globals_no_index : Globals :=
  {| g_embedding_model := Some good_embedder;
     g_chroma_client := None;
     g_chroma_collection := None |}.

(** The credential set to the empty string. *)
Definition env_empty_key (name : string) : option string :=
  if String.eqb name "OPENAI_API_KEY" then Some "" else None.

Definition w_empty_key : World :=
  scenario env_empty_key (Some two_hits) answer_ok.

(** An index answer with a second batch, as for a second query vector. *)
Definition two_batches : QueryResult :=
  {| documents := [[Some "Mint with the API."]; [Some "Wallets are custodial."]];
     metadatas := [[Some minting_guide]; [Some untitled_chunk]];
     distances := [[0.15%float]; [0.4%float]] |}.

Definition w_two_batches : World :=
  scenario env_with_key (Some two_batches) answer_ok.

(** A completion service that answers, but without any choice. *)
Definition w_no_choice : World :=
  scenario env_with_key None (Ok {| choices := [] |}).

(** * Lemmas *)

(** ** Basic facts *)

Section Monad.
Context {A B : Type}.

Lemma bind_ret (a : A) (k : A -> M B) : bind (ret a) k = k a.
Proof. unfold bind, ret. destruct (k a); reflexivity. Qed.

Lemma bind_lift_ok (a : A) (k : A -> M B) : bind (lift (Ok a)) k = k a.
Proof. apply bind_ret. Qed.

Lemma bind_calls_outcome (t : list event) (a : A) (k : A -> M B) :
  bind (t, Ok a) k = ((t ++ calls (k a))%list, outcome (k a)).
Proof. unfold bind, calls, outcome. destruct (k a); reflexivity. Qed.

Lemma try_except_total (body : M A) (x : A) :
  exists a, outcome (try_except body (fun _ => ret x)) = Ok a.
Proof.
  destruct body as [t [a|e]]; simpl; eauto.
Qed.
End Monad.

(** Trimming leaves nothing exactly when every character is white space. *)
Lemma strip_blank_iff s :
  truthy (strip s) = false
  <-> forallb is_space (list_ascii_of_string s) = true.
Proof.
  unfold strip. induction s as [|c s IH]; simpl.
  - tauto.
  - destruct (is_space c) eqn:Hc; simpl.
    + exact IH.
    + rewrite Hc. destruct (rstrip s); simpl; split; discriminate.
Qed.

Lemma contains_middle pre s post : contains (pre +:+ s +:+ post) s.
Proof. exists pre, post. reflexivity. Qed.

Lemma join_some sep (texts : list string) :
  join sep (map Some texts) = Ok (join_str sep texts).
Proof.
  unfold join.
  assert (Hn : forall i, first_none (map Some texts) i = None).
  { induction texts as [|x xs IH]; intros i; simpl; auto. }
  rewrite Hn. f_equal. f_equal. clear Hn.
  induction texts as [|x xs IH]; cbn; [reflexivity|].
  f_equal. exact IH.
Qed.

(** ** The Retriever, case by case *)

Section Retriever.
Variables (w : World) (q : string) (n : Z).

Lemma semantic_search_unavailable :
  chroma_collection w = None \/ embedding_model w = None ->
  semantic_search w q n = ret [].
Proof.
  unfold semantic_search. intros [H|H]; rewrite H; [reflexivity|].
  destruct (chroma_collection w); reflexivity.
Qed.

Variables (coll : list (list float) -> Z -> list string -> result QueryResult)
          (enc : list string -> result (list (list float))).
Hypothesis Hcoll : chroma_collection w = Some coll.
Hypothesis Henc : embedding_model w = Some enc.

Lemma semantic_search_encode_raise e :
  enc [q] = Raise e ->
  semantic_search w q n = ([EvEncode [q]], Ok []).
Proof.
  intros H. unfold semantic_search. rewrite Hcoll, Henc.
  unfold call. rewrite H. reflexivity.
Qed.

Lemma semantic_search_query_raise emb e :
  enc [q] = Ok emb ->
  coll emb n include_fields = Raise e ->
  semantic_search w q n =
    ([EvEncode [q]; EvQuery emb n include_fields], Ok []).
Proof.
  intros H1 H2. unfold semantic_search. rewrite Hcoll, Henc.
  unfold call. rewrite H1. cbn. rewrite H2. reflexivity.
Qed.

Lemma semantic_search_answered emb results :
  enc [q] = Ok emb ->
  coll emb n include_fields = Ok results ->
  semantic_search w q n =
    ([EvEncode [q]; EvQuery emb n include_fields], Ok (formatted results)).
Proof.
  intros H1 H2. unfold semantic_search, formatted. rewrite Hcoll, Henc.
  unfold call. rewrite H1. cbn. rewrite H2. cbn.
  destruct (getitem (documents results) 0) as [b|e]; cbn; [|reflexivity].
  destruct (format_results results (seq 0 (length b)) []); reflexivity.
Qed.
End Retriever.

Lemma semantic_search_outcome w q n :
  exists docs, outcome (semantic_search w q n) = Ok docs.
Proof.
  unfold semantic_search.
  destruct (chroma_collection w), (embedding_model w);
    try (exists []; reflexivity).
  apply try_except_total.
Qed.

(** The calls of the Retriever: at most one embedding of the query and one
    index lookup, the latter for [n] results. *)
Lemma semantic_search_calls w q n ev :
  In ev (calls (semantic_search w q n)) ->
  ev = EvEncode [q] \/ exists emb, ev = EvQuery emb n include_fields.
Proof.
  destruct (chroma_collection w) as [coll|] eqn:Hc;
    [destruct (embedding_model w) as [enc|] eqn:He|].
  - destruct (enc [q]) as [emb|e] eqn:H1.
    + destruct (coll emb n include_fields) as [results|e] eqn:H2.
      * rewrite (semantic_search_answered w q n coll enc Hc He emb results H1 H2).
        simpl. intros [<-|[<-|[]]]; eauto.
      * rewrite (semantic_search_query_raise w q n coll enc Hc He emb e H1 H2).
        simpl. intros [<-|[<-|[]]]; eauto.
    + rewrite (semantic_search_encode_raise w q n coll enc Hc He e H1).
      simpl. intros [<-|[]]; eauto.
  - rewrite semantic_search_unavailable by auto. simpl. tauto.
  - rewrite semantic_search_unavailable by auto. simpl. tauto.
Qed.

(** ** The formatting loop *)

Lemma getitem_lookup {A} (l : list A) i x :
  l !! i = Some x -> getitem l i = Ok x.
Proof. unfold getitem. intros ->. reflexivity. Qed.

Lemma getitem_none {A} (l : list A) i :
  l !! i = None -> getitem l i = Raise index_error.
Proof. unfold getitem. intros ->. reflexivity. Qed.

Section FormatLoop.
Variables (results : QueryResult).
Variables (ds : list (option string))
          (ms : list (option (gmap string val))) (ss : list float).
Hypothesis Hds : documents results !! 0%nat = Some ds.
Hypothesis Hms : metadatas results !! 0%nat = Some ms.
Hypothesis Hss : distances results !! 0%nat = Some ss.

(** One iteration, when position [i] exists in all three lists. *)
Lemma format_results_step i rest acc c m d :
  ds !! i = Some c -> ms !! i = Some m -> ss !! i = Some d ->
  format_results results (i :: rest) acc =
  format_results results rest
    (acc ++ [{| content := c; metadata := m; similarity := (1 - d)%float |}]).
Proof.
  intros Hc Hm Hd. simpl.
  rewrite (getitem_lookup _ _ _ Hds), (getitem_lookup _ _ _ Hms),
          (getitem_lookup _ _ _ Hss). simpl.
  rewrite (getitem_lookup _ _ _ Hc), (getitem_lookup _ _ _ Hm),
          (getitem_lookup _ _ _ Hd). reflexivity.
Qed.

(** Metadata and distances reach as far as the documents: the loop pairs
    the three lists position by position. *)
Lemma format_results_zip n : forall k acc,
  (k + n = length ds)%nat ->
  (length ds <= length ms)%nat -> (length ds <= length ss)%nat ->
  format_results results (seq k n) acc =
  Ok (acc ++ zip_docs (drop k ds) (drop k ms) (drop k ss)).
Proof.
  induction n as [|n IH]; intros k acc Hk Hm Hs.
  - simpl. rewrite drop_ge by lia. simpl. rewrite app_nil_r. reflexivity.
  - destruct (lookup_lt_is_Some_2 ds k) as [c Hc]; [lia|].
    destruct (lookup_lt_is_Some_2 ms k) as [m Hm']; [lia|].
    destruct (lookup_lt_is_Some_2 ss k) as [d Hd]; [lia|].
    simpl seq. rewrite (format_results_step k _ acc c m d Hc Hm' Hd).
    rewrite IH by lia.
    rewrite (drop_S ds c k Hc), (drop_S ms m k Hm'), (drop_S ss d k Hd).
    simpl. rewrite <- app_assoc. reflexivity.
Qed.

(** Metadata or distances end before the documents: the loop raises. *)
Lemma format_results_short n : forall k acc,
  (k + n = length ds)%nat ->
  (k <= length ms)%nat -> (k <= length ss)%nat ->
  (length ms < length ds)%nat \/ (length ss < length ds)%nat ->
  format_results results (seq k n) acc = Raise index_error.
Proof.
  induction n as [|n IH]; intros k acc Hk Hm Hs Hshort.
  - lia.
  - destruct (lookup_lt_is_Some_2 ds k) as [c Hc]; [lia|].
    simpl.
    rewrite (getitem_lookup _ _ _ Hds), (getitem_lookup _ _ _ Hms),
            (getitem_lookup _ _ _ Hss). simpl.
    rewrite (getitem_lookup _ _ _ Hc). simpl.
    destruct (ms !! k) as [m|] eqn:Hm'.
    + rewrite (getitem_lookup _ _ _ Hm'). simpl.
      destruct (ss !! k) as [d|] eqn:Hd.
      * rewrite (getitem_lookup _ _ _ Hd). simpl.
        apply lookup_lt_Some in Hm', Hd. apply IH; lia.
      * rewrite (getitem_none _ _ Hd). reflexivity.
    + rewrite (getitem_none _ _ Hm'). reflexivity.
Qed.

End FormatLoop.

(** Whatever the loop returns: one snippet per position visited, whose
    similarity is one minus the distance at that position. *)
Lemma format_results_similarity results idxs : forall acc docs,
  format_results results idxs acc = Ok docs ->
  exists new, docs = acc ++ new
    /\ Forall2 (fun i doc =>
                  exists ss d, distances results !! 0%nat = Some ss
                    /\ ss !! i = Some d
                    /\ similarity doc = (1 - d)%float) idxs new.
Proof.
  induction idxs as [|i rest IH]; intros acc docs H.
  - simpl in H. injection H as <-. exists []. rewrite app_nil_r. auto.
  - simpl in H.
    destruct (rbind (getitem (documents results) 0) _) as [c|]; simpl in H;
      [|discriminate].
    destruct (rbind (getitem (metadatas results) 0) _) as [m|]; simpl in H;
      [|discriminate].
    unfold getitem in H at 1.
    destruct (distances results !! 0%nat) as [ss|] eqn:Hss; simpl in H;
      [|discriminate].
    unfold getitem in H at 1.
    destruct (ss !! i) as [d|] eqn:Hd; simpl in H; [|discriminate].
    apply IH in H as (new & -> & Hall).
    eexists (_ :: new). rewrite <- app_assoc. split; [reflexivity|].
    constructor; [|exact Hall]. exists ss, d. auto.
Qed.

(** The snippet kept at a position comes from the distance there. *)
Lemma formatted_lookup results ss i doc :
  distances results !! 0%nat = Some ss ->
  formatted results !! i = Some doc ->
  exists d, ss !! i = Some d /\ similarity doc = (1 - d)%float.
Proof.
  intros Hss Hi. unfold formatted in Hi.
  destruct (getitem (documents results) 0) as [b|]; simpl in Hi;
    [|discriminate].
  destruct (format_results results (seq 0 (length b)) []) as [docs|] eqn:Hf;
    [|discriminate].
  apply format_results_similarity in Hf as (new & -> & Hall). simpl in Hi.
  destruct (Forall2_lookup_r _ _ _ _ _ Hall Hi)
    as (j & Hj & ss' & d & Hss' & Hd & Hsim).
  apply lookup_seq in Hj as [-> _]. simpl in Hd.
  rewrite Hss in Hss'. injection Hss' as <-. eauto.
Qed.

(** ** The source-building loop *)

Lemma collect_context_inv docs : forall cp0 s0 cp srcs,
  collect_context docs cp0 s0 = Ok (cp, srcs) ->
  cp = cp0 ++ map content docs
  /\ exists new, srcs = s0 ++ new /\ Forall2 source_for docs new.
Proof.
  induction docs as [|doc rest IH]; intros cp0 s0 cp srcs H.
  - simpl in H. injection H as <- <-. rewrite !app_nil_r.
    split; [reflexivity|]. exists []. rewrite app_nil_r. auto.
  - simpl in H. unfold metadata_get in H.
    destruct (metadata doc) as [m|] eqn:Hm; simpl in H; [|discriminate].
    unfold new_Source, str_field in H.
    destruct (default (VStr default_title) (m !! "title")) as [t| | |] eqn:Ht;
      simpl in H; try discriminate.
    destruct (default (VStr docs_url) (m !! "url")) as [u| | |] eqn:Hu;
      simpl in H; try discriminate.
    apply IH in H as (-> & new & -> & Hall).
    rewrite <- !app_assoc. split; [reflexivity|].
    eexists (_ :: new). split; [reflexivity|].
    constructor; [|exact Hall].
    exists m. simpl. rewrite Ht, Hu. auto.
Qed.

Lemma collect_context_ok docs : forall cp0 s0,
  forallb meta_ok docs = true ->
  exists srcs, collect_context docs cp0 s0 = Ok (cp0 ++ map content docs, srcs).
Proof.
  induction docs as [|doc rest IH]; intros cp0 s0 H.
  - exists s0. simpl. rewrite app_nil_r. reflexivity.
  - simpl in H. apply andb_prop in H as [Hd Hrest].
    unfold meta_ok in Hd. simpl. unfold metadata_get.
    destruct (metadata doc) as [m|]; [|discriminate]. simpl.
    apply andb_prop in Hd as [Ht Hu].
    unfold new_Source, str_field.
    destruct (m !! "title") as [[t| | |]|]; try discriminate; simpl;
      (destruct (m !! "url") as [[u| | |]|]; try discriminate; simpl;
       match goal with
       | |- context [collect_context rest ?c ?s] =>
           destruct (IH c s Hrest) as [srcs ->]
       end;
       rewrite <- app_assoc; eauto).
Qed.

(** A snippet without metadata stops the loop with an [AttributeError]. *)
Lemma collect_context_no_metadata doc rest cp0 s0 :
  metadata doc = None ->
  collect_context (doc :: rest) cp0 s0 =
  Raise (Exception "AttributeError" "'NoneType' object has no attribute 'get'").
Proof. intros H. simpl. rewrite H. reflexivity. Qed.

(** ** The two completion stages *)

Lemma fallback_response_eq w q :
  fallback_response w q =
  ([create_event (unaided_messages q) 600],
   Ok match completion_text (create_answer w (unaided_messages q) 600) with
      | Ok text => fallback_ok_response w q text
      | Raise e => error_response_unaided w q e
      end).
Proof.
  unfold fallback_response, completion_text, create_answer, create_event, call.
  destruct (openai_create w _ _ _ _) as [c|e]; [|reflexivity].
  cbn. destruct (first_content c) as [[text|]|e]; reflexivity.
Qed.

Lemma generate_response_unaided w q t :
  semantic_search w q 5 = (t, Ok []) ->
  generate_response w q =
  (t ++ [create_event (unaided_messages q) 600],
   Ok match completion_text (create_answer w (unaided_messages q) 600) with
      | Ok text => fallback_ok_response w q text
      | Raise e => error_response_unaided w q e
      end).
Proof.
  intros H. unfold generate_response. rewrite H.
  rewrite bind_calls_outcome, fallback_response_eq. reflexivity.
Qed.

Lemma generate_response_grounded w q t docs cp srcs context :
  semantic_search w q 5 = (t, Ok docs) -> docs <> [] ->
  collect_context docs [] [] = Ok (cp, srcs) ->
  join (nl +:+ nl) cp = Ok context ->
  generate_response w q =
  (t ++ [create_event (grounded_messages context q) 800],
   Ok match completion_text (create_answer w (grounded_messages context q) 800) with
      | Ok text => rag_response w q text srcs
      | Raise e => error_response_grounded w q e srcs
      end).
Proof.
  intros H Hne Hc Hj. unfold generate_response. rewrite H.
  rewrite bind_calls_outcome. destruct docs as [|d0 docs']; [congruence|].
  rewrite Hc, bind_lift_ok, Hj, bind_lift_ok.
  unfold completion_text, create_answer, create_event, call, calls, outcome.
  destruct (openai_create w _ _ _ _) as [c|e]; [|reflexivity].
  cbn. destruct (first_content c) as [[text|]|e]; reflexivity.
Qed.

Lemma generate_response_collect_raise w q t docs e :
  semantic_search w q 5 = (t, Ok docs) -> docs <> [] ->
  collect_context docs [] [] = Raise e ->
  generate_response w q = (t, Raise e).
Proof.
  intros H Hne Hc. unfold generate_response. rewrite H.
  rewrite bind_calls_outcome. destruct docs as [|d0 docs']; [congruence|].
  rewrite Hc. cbn. rewrite app_nil_r. reflexivity.
Qed.

Lemma generate_response_join_raise w q t docs cp srcs e :
  semantic_search w q 5 = (t, Ok docs) -> docs <> [] ->
  collect_context docs [] [] = Ok (cp, srcs) ->
  join (nl +:+ nl) cp = Raise e ->
  generate_response w q = (t, Raise e).
Proof.
  intros H Hne Hc Hj. unfold generate_response. rewrite H.
  rewrite bind_calls_outcome. destruct docs as [|d0 docs']; [congruence|].
  rewrite Hc, bind_lift_ok, Hj. cbn. rewrite app_nil_r. reflexivity.
Qed.

(** What a successful run of the grounded path went through. *)
Lemma generate_response_ok_inv w q t docs r :
  semantic_search w q 5 = (t, Ok docs) -> docs <> [] ->
  outcome (generate_response w q) = Ok r ->
  exists cp context,
    collect_context docs [] [] = Ok (cp, sources r)
    /\ join (nl +:+ nl) cp = Ok context
    /\ generate_response w q =
       (t ++ [create_event (grounded_messages context q) 800], Ok r)
    /\ (method r = method_RAG \/ method r = method_Error).
Proof.
  intros H Hne Hr.
  destruct (collect_context docs [] []) as [[cp srcs]|e] eqn:Hc.
  2:{ rewrite (generate_response_collect_raise w q t docs e H Hne Hc) in Hr.
      discriminate. }
  destruct (join (nl +:+ nl) cp) as [context|e] eqn:Hj.
  2:{ rewrite (generate_response_join_raise w q t docs cp srcs e H Hne Hc Hj) in Hr.
      discriminate. }
  pose proof (generate_response_grounded w q t docs cp srcs context H Hne Hc Hj)
    as Hg.
  rewrite Hg in Hr. simpl in Hr. injection Hr as Hr.
  exists cp, context. rewrite Hg.
  destruct (completion_text _); subst r; simpl; auto.
Qed.

(** Snippets with text and well-formed metadata never make the grounded
    path raise. *)
Lemma doc_ok_contents docs :
  forallb doc_ok docs = true ->
  forallb meta_ok docs = true
  /\ exists texts, map content docs = map Some texts.
Proof.
  induction docs as [|d rest IH]; simpl; intros H.
  - split; [reflexivity|]. exists []. reflexivity.
  - apply andb_prop in H as [Hd Hrest].
    destruct (IH Hrest) as [Hm [texts Ht]].
    unfold doc_ok in Hd. destruct (content d) as [c|] eqn:Hc; [|discriminate].
    rewrite Hd, Hm. split; [reflexivity|].
    exists (c :: texts). simpl. rewrite Ht. reflexivity.
Qed.

Lemma generate_response_well_formed w q :
  (forall docs, outcome (semantic_search w q 5) = Ok docs ->
                forallb doc_ok docs = true) ->
  exists t r, generate_response w q = (t, Ok r)
    /\ resp_query r = q
    /\ (method r = method_RAG \/ method r = method_Fallback
        \/ method r = method_Error).
Proof.
  intros Hok.
  destruct (semantic_search_outcome w q 5) as [docs Hd].
  specialize (Hok docs Hd).
  destruct (semantic_search w q 5) as [t o] eqn:Hs. simpl in Hd. subst o.
  destruct docs as [|d0 docs'].
  - rewrite (generate_response_unaided w q t Hs).
    eexists _, _. split; [reflexivity|].
    destruct (completion_text _); simpl; auto.
  - destruct (doc_ok_contents _ Hok) as [Hm [texts Ht]].
    destruct (collect_context_ok (d0 :: docs') [] [] Hm) as [srcs Hc].
    simpl app in Hc.
    assert (Hj : join (nl +:+ nl) (map content (d0 :: docs'))
                 = Ok (join_str (nl +:+ nl) texts))
      by (rewrite Ht; apply join_some).
    rewrite (generate_response_grounded w q t _ _ srcs _ Hs ltac:(discriminate) Hc Hj).
    eexists _, _. split; [reflexivity|].
    destruct (completion_text _); simpl; auto.
Qed.

(** The calls of the pipeline: those of the Retriever, then at most one
    completion request. *)
Lemma generate_response_calls w q :
  exists rest,
    calls (generate_response w q) = calls (semantic_search w q 5) ++ rest
    /\ (rest = [] \/ exists msgs k, rest = [create_event msgs k]).
Proof.
  destruct (semantic_search_outcome w q 5) as [docs Hd].
  destruct (semantic_search w q 5) as [t o] eqn:Hs. simpl in Hd. subst o.
  destruct docs as [|d0 docs'].
  - rewrite (generate_response_unaided w q t Hs). simpl. eauto 6.
  - destruct (collect_context (d0 :: docs') [] []) as [[cp srcs]|e] eqn:Hc.
    + destruct (join (nl +:+ nl) cp) as [context|e] eqn:Hj.
      * rewrite (generate_response_grounded w q t _ cp srcs context Hs
                   ltac:(discriminate) Hc Hj).
        simpl. eauto 6.
      * rewrite (generate_response_join_raise w q t _ cp srcs e Hs
                   ltac:(discriminate) Hc Hj).
        exists []. simpl. rewrite app_nil_r. auto.
    + rewrite (generate_response_collect_raise w q t _ e Hs
                 ltac:(discriminate) Hc).
      exists []. simpl. rewrite app_nil_r. auto.
Qed.

Lemma ask_question_calls w request :
  truthy (strip (query request)) = true ->
  env_missing w "OPENAI_API_KEY" = false ->
  fst (ask_question w request)
  = calls (generate_response w (strip (query request))).
Proof.
  intros Hq Hk. unfold ask_question. rewrite Hq, Hk. simpl.
  destruct (generate_response w _) as [t [r|e]]; reflexivity.
Qed.

(** ** Binary64: one minus a value of the unit interval

    The subtraction [1 - d] is followed through the specification of the
    binary64 operations: for [d] in the unit interval the exact difference
    is a non-negative integer multiple of [2^e] below [2^-e], and rounding
    it never passes the float 1. *)

Lemma digits2_pos_bounds p :
  2 ^ (Zpos (digits2_pos p) - 1) <= Zpos p < 2 ^ Zpos (digits2_pos p).
Proof.
  induction p as [p IH|p IH|]; simpl digits2_pos.
  - rewrite Pos2Z.inj_succ.
    replace (Z.succ (Zpos (digits2_pos p)) - 1)
      with (Z.succ (Zpos (digits2_pos p) - 1)) by lia.
    rewrite !Z.pow_succ_r by lia. rewrite (Pos2Z.inj_xI p).
    set (A := 2 ^ (Zpos (digits2_pos p) - 1)) in *.
    set (B := 2 ^ Zpos (digits2_pos p)) in *. clearbody A B. lia.
  - rewrite Pos2Z.inj_succ.
    replace (Z.succ (Zpos (digits2_pos p)) - 1)
      with (Z.succ (Zpos (digits2_pos p) - 1)) by lia.
    rewrite !Z.pow_succ_r by lia. rewrite (Pos2Z.inj_xO p).
    set (A := 2 ^ (Zpos (digits2_pos p) - 1)) in *.
    set (B := 2 ^ Zpos (digits2_pos p)) in *. clearbody A B. lia.
  - simpl. lia.
Qed.

Lemma digits2_pos_le p k : Zpos p < 2 ^ k -> Zpos (digits2_pos p) <= k.
Proof.
  intros H. destruct (digits2_pos_bounds p) as [Hlo _].
  destruct (Z_lt_le_dec k (Zpos (digits2_pos p))) as [Hlt|]; [|assumption].
  assert (0 <= k \/ k < 0) as [Hk|Hk] by lia.
  - assert (2 ^ k <= 2 ^ (Zpos (digits2_pos p) - 1))
      by (apply Z.pow_le_mono_r; lia).
    lia.
  - rewrite Z.pow_neg_r in H by assumption. lia.
Qed.

Lemma iter_xO_pow p d : Zpos (Pos.iter xO p d) = Zpos p * 2 ^ Zpos d.
Proof.
  rewrite <- Z.shiftl_mul_pow2 by lia. simpl.
  apply (Pos.iter_swap_gen _ _ Zpos xO (Z.mul 2)). reflexivity.
Qed.

Lemma shr_1_bound r :
  0 <= shr_m r -> 0 <= shr_m (shr_1 r) /\ 2 * shr_m (shr_1 r) <= shr_m r.
Proof.
  destruct r as [m rr s]. simpl.
  destruct m as [|[p|p|]|p]; simpl; lia.
Qed.

Lemma iter_shr_1_bound n : forall r,
  0 <= shr_m r ->
  0 <= shr_m (SpecFloat.iter_pos shr_1 n r)
  /\ shr_m (SpecFloat.iter_pos shr_1 n r) * 2 ^ Zpos n <= shr_m r.
Proof.
  induction n as [n IH|n IH|]; intros r Hr; simpl SpecFloat.iter_pos.
  - destruct (shr_1_bound r Hr) as [H0 H1].
    destruct (IH _ H0) as [H2 H3]. destruct (IH _ H2) as [H4 H5].
    split; [assumption|].
    rewrite (Pos2Z.inj_xI n).
    replace (2 * Zpos n + 1) with (Z.succ (Zpos n + Zpos n)) by lia.
    rewrite Z.pow_succ_r, Z.pow_add_r by lia.
    assert (0 < 2 ^ Zpos n) by (apply Z.pow_pos_nonneg; lia). nia.
  - destruct (IH _ Hr) as [H2 H3]. destruct (IH _ H2) as [H4 H5].
    split; [assumption|].
    rewrite (Pos2Z.inj_xO n).
    replace (2 * Zpos n) with (Zpos n + Zpos n) by lia.
    rewrite Z.pow_add_r by lia.
    assert (0 < 2 ^ Zpos n) by (apply Z.pow_pos_nonneg; lia). nia.
  - destruct (shr_1_bound r Hr). change (2 ^ 1) with 2. lia.
Qed.

Lemma round_nearest_even_bound m l :
  m <= round_nearest_even m l <= m + 1.
Proof.
  destruct l as [|[| |]]; simpl; try lia. destruct (Z.even m); lia.
Qed.

Lemma finite_in_unit m e : e <= -53 -> SF_in_unit (S754_finite false m e) = true.
Proof.
  intros H. unfold SF_in_unit, SF_one, SFleb, SFcompare.
  replace (e ?= -52) with Lt by (symmetry; apply Z.compare_lt_iff; lia).
  reflexivity.
Qed.

Lemma fexp64 x : fexp prec emax x = Z.max (x - 53) (-1074).
Proof. reflexivity. Qed.

Lemma shr_nonpos r e n : n <= 0 -> shr r e n = (r, e).
Proof. destruct n; [reflexivity|lia|reflexivity]. Qed.

Lemma shr_pos r e p : shr r e (Zpos p) = (SpecFloat.iter_pos shr_1 p r, e + Zpos p).
Proof. reflexivity. Qed.

Lemma leb_emax e : e <= -52 -> (e <=? emax - prec) = true.
Proof. intros H. apply Z.leb_le. change (emax - prec) with 971. lia. Qed.

Lemma binary_round_aux_unit mz ez :
  Zpos mz < 2 ^ (- ez) -> ez <= -53 ->
  SF_in_unit (binary_round_aux prec emax false (Zpos mz) ez loc_Exact) = true.
Proof.
  intros Hm He.
  pose proof (digits2_pos_le mz (- ez) Hm) as HD.
  destruct (digits2_pos_bounds mz) as [_ Hup].
  unfold binary_round_aux, shr_fexp.
  change (Zdigits2 (Zpos mz)) with (Zpos (digits2_pos mz)).
  rewrite fexp64.
  set (D := Zpos (digits2_pos mz)) in *.
  set (f := Z.max (D + ez - 53) (-1074)).
  assert (Hf : f <= -53) by lia. assert (Hf' : -1074 <= f) by lia.
  destruct (Z_le_gt_dec (f - ez) 0) as [Hn|Hn].
  - rewrite shr_nonpos by assumption.
    cbn [shr_record_of_loc shr_m loc_of_shr_record round_nearest_even].
    change (Zdigits2 (Zpos mz)) with D. rewrite fexp64. fold f.
    rewrite shr_nonpos by assumption.
    cbn [shr_record_of_loc shr_m].
    rewrite leb_emax by lia. apply finite_in_unit. assumption.
  - destruct (f - ez) as [|pn|pn] eqn:Hfe; try lia. rewrite shr_pos.
    destruct (iter_shr_1_bound pn (shr_record_of_loc (Zpos mz) loc_Exact))
      as [H0 H1]; [simpl; lia|].
    set (r1 := SpecFloat.iter_pos shr_1 pn _) in *.
    cbn [shr_record_of_loc shr_m] in H1.
    pose proof (round_nearest_even_bound (shr_m r1) (loc_of_shr_record r1)) as Hr.
    set (m2 := round_nearest_even (shr_m r1) (loc_of_shr_record r1)) in *.
    assert (Hm1 : shr_m r1 < 2 ^ 53).
    { assert (Hpow : 2 ^ D <= 2 ^ (Zpos pn + 53)) by (apply Z.pow_le_mono_r; lia).
      rewrite Z.pow_add_r in Hpow by lia.
      assert (0 < 2 ^ Zpos pn) by (apply Z.pow_pos_nonneg; lia).
      set (P := 2 ^ Zpos pn) in *. set (Q := 2 ^ 53) in *.
      set (PD := 2 ^ D) in *. clearbody P Q PD. nia. }
    replace (ez + Zpos pn) with f by lia.
    assert (Hm2 : 0 <= m2 <= 2 ^ 53) by lia.
    clearbody m2. clear -Hm2 Hf Hf'.
    destruct m2 as [|p2|p2]; try lia.
    + cbn [Zdigits2]. rewrite fexp64. rewrite shr_nonpos by lia.
      reflexivity.
    + destruct (Z.eq_dec (Zpos p2) (2 ^ 53)) as [Heq|Hne].
      * change (2 ^ 53) with (Zpos 9007199254740992) in Heq.
        injection Heq as ->.
        change (Zdigits2 (Zpos 9007199254740992)) with 54.
        rewrite fexp64.
        replace (Z.max (54 + f - 53) (-1074) - f) with 1 by lia.
        rewrite shr_pos.
        cbn [SpecFloat.iter_pos shr_record_of_loc shr_1 shr_m orb].
        rewrite leb_emax by lia.
        unfold SF_in_unit, SF_one, SFleb, SFcompare.
        destruct (Z.compare_spec (f + 1) (-52)); try lia; reflexivity.
      * assert (Hlt : Zpos p2 < 2 ^ 53) by lia.
        pose proof (digits2_pos_le p2 53 Hlt).
        cbn [Zdigits2]. rewrite fexp64. rewrite shr_nonpos by lia.
        cbn [shr_record_of_loc shr_m].
        rewrite leb_emax by lia. apply finite_in_unit. assumption.
Qed.

Lemma binary_round_unit mx ex :
  Zpos mx < 2 ^ (- ex) -> ex <= -53 ->
  SF_in_unit (binary_round prec emax false mx ex) = true.
Proof.
  intros Hm He. unfold binary_round, shl_align. rewrite fexp64.
  destruct (Z.max (Zpos (digits2_pos mx) + ex - 53) (-1074) - ex)
    as [|d|d] eqn:Hd; try (apply binary_round_aux_unit; assumption).
  apply binary_round_aux_unit; [|lia].
  rewrite iter_xO_pow.
  replace (- Z.max (Zpos (digits2_pos mx) + ex - 53) (-1074))
    with (- ex + Zpos d) by lia.
  rewrite Z.pow_add_r by lia.
  assert (0 < 2 ^ Zpos d) by (apply Z.pow_pos_nonneg; lia).
  set (P := 2 ^ Zpos d) in *. set (Q := 2 ^ (- ex)) in *. clearbody P Q. nia.
Qed.

Lemma SFsub_one_unit x :
  valid_binary x = true -> SF_in_unit x = true ->
  SF_in_unit (SF64sub SF_one x) = true.
Proof.
  destruct x as [s|s| |s m e]; intros Hv Hu.
  - reflexivity.
  - destruct s; discriminate Hu.
  - discriminate Hu.
  - unfold SF_in_unit, SF_one, SFleb, SFcompare in Hu.
    destruct s; [discriminate Hu|].
    unfold valid_binary, bounded, canonical_mantissa in Hv.
    apply andb_prop in Hv as [Hc _]. rewrite fexp64 in Hc.
    apply Z.eqb_eq in Hc.
    destruct (digits2_pos_bounds m) as [Hlo Hup].
    set (D := Zpos (digits2_pos m)) in *. clearbody D.
    destruct (Z.compare_spec e (-52)) as [Heq|Hlt|Hgt];
      [| |discriminate Hu].
    + subst e. replace D with 53 in Hlo by lia. clear Hup.
      change (2 ^ (53 - 1)) with (Zpos 4503599627370496) in Hlo.
      rewrite Pos.compare_cont_spec in Hu.
      assert (Hle : (m <= 4503599627370496)%positive).
      { unfold Pos.le. intros Hgt. rewrite Hgt in Hu. discriminate Hu. }
      clear Hu Hc.
      assert (m = 4503599627370496%positive)
        by (apply Pos.le_antisym; [exact Hle|exact Hlo]).
      subst m.
      reflexivity.
    + clear Hu. unfold SF64sub, SFsub, SF_one, cond_Zopp.
      rewrite Z.min_r by lia. unfold shl_align at 2.
      rewrite Z.sub_diag. cbn [fst]. unfold shl_align.
      destruct (e - -52) as [|d|d] eqn:Hd; try lia. cbn [fst].
      assert (Hbig : Zpos (Pos.iter xO 4503599627370496%positive d) = 2 ^ (- e)).
      { rewrite iter_xO_pow. change (Zpos 4503599627370496%positive) with (2 ^ 52).
        rewrite <- Z.pow_add_r by lia. f_equal. lia. }
      assert (Hm : Zpos m < 2 ^ (- e)).
      { assert (2 ^ D <= 2 ^ (- e)) by (apply Z.pow_le_mono_r; lia). lia. }
      rewrite Hbig.
      destruct (2 ^ (- e) - Zpos m) as [|p|p] eqn:Hp; try lia.
      unfold binary_normalize. apply binary_round_unit; lia.
Qed.

Lemma in_unit_spec x : in_unit x = SF_in_unit (Prim2SF x).
Proof. unfold in_unit, SF_in_unit. rewrite !leb_spec. reflexivity. Qed.

Lemma in_unit_one_minus d : in_unit d = true -> in_unit (1 - d) = true.
Proof.
  rewrite !in_unit_spec, sub_spec. apply SFsub_one_unit, Prim2SF_valid.
Qed.

(** * Properties of the pipeline *)

(** ** End-to-end runs *)

(** The end-to-end run of the grounded path. *)
Example ask_question_rag :
  exists t r, ask_question w_rag nft_question = (t, Returned r)
    /\ resp_query r = "How do I create an NFT?"
    /\ response r = "Use the /mint endpoint"
    /\ method r = "RAG (Full Knowledge Base)"
    /\ map title (sources r) = ["Minting Guide"; "Crossmint Documentation"]
    /\ map relevance_score (sources r) = [0.91%float; 0.77%float]
    /\ length t = 3%nat.
Proof. eexists _, _. split; [vm_compute; reflexivity|]. repeat split. Qed.

(** A stored record without metadata makes the request fail with a 500. *)
Example ask_question_bare :
  ask_question w_bare nft_question =
  ([EvEncode ["How do I create an NFT?"];
    EvQuery [[0.25%float; 0.5%float]] 5 include_fields],
   HTTPException 500
     "Error processing query: 'NoneType' object has no attribute 'get'").
Proof. vm_compute. reflexivity. Qed.

(** ** C1: the boundary operation *)

(** C1, as stated, fails: a non-empty query does not always yield an
    AnswerResult.  Without the completion credential the request is
    answered with a 500 before the pipeline runs. *)
Lemma C1_nonempty_query_without_result :
  ~ (forall w request,
       truthy (strip (query request)) = true ->
       exists t r, ask_question w request = (t, Returned r)
         /\ (method r = method_RAG \/ method r = method_Fallback
             \/ method r = method_Error)).
Proof.
  intros H.
  destruct (H w_no_key nft_question eq_refl) as (t & r & Heq & _).
  vm_compute in Heq. discriminate.
Qed.

(** C1 (amended): a query that is empty after trimming is rejected with the
    400 "Query cannot be empty" and no collaborator is called; a non-empty
    query without the completion credential is rejected with a 500, again
    without any call; a non-empty query with the credential, when every
    retrieved snippet carries a document text and a metadata mapping whose
    title and url are absent or strings, returns one AnswerResult for the
    trimmed query whose mode is RAG, Fallback or Error. *)
Theorem ask_question_contract w request :
  (truthy (strip (query request)) = false ->
   ask_question w request = ([], HTTPException 400 "Query cannot be empty"))
  /\ (truthy (strip (query request)) = true ->
      env_missing w "OPENAI_API_KEY" = true ->
      ask_question w request =
      ([], HTTPException 500 "OpenAI API key not configured"))
  /\ (truthy (strip (query request)) = true ->
      env_missing w "OPENAI_API_KEY" = false ->
      (forall docs,
         outcome (semantic_search w (strip (query request)) 5) = Ok docs ->
         forallb doc_ok docs = true) ->
      exists t r, ask_question w request = (t, Returned r)
        /\ resp_query r = strip (query request)
        /\ (method r = method_RAG \/ method r = method_Fallback
            \/ method r = method_Error)).
Proof.
  unfold ask_question. repeat split.
  - intros ->. reflexivity.
  - intros -> ->. reflexivity.
  - intros -> -> Hok. simpl.
    destruct (generate_response_well_formed w _ Hok) as (t & r & -> & Hq & Hm).
    eauto.
Qed.

Lemma ask_question_contract_witness :
  ask_question w_rag blank_question
    = ([], HTTPException 400 "Query cannot be empty")
  /\ ask_question w_no_key nft_question
    = ([], HTTPException 500 "OpenAI API key not configured")
  /\ exists t r, ask_question w_rag nft_question = (t, Returned r)
       /\ resp_query r = strip (query nft_question)
       /\ (method r = method_RAG \/ method r = method_Fallback
           \/ method r = method_Error).
Proof.
  split; [|split].
  - apply (proj1 (ask_question_contract w_rag blank_question)). reflexivity.
  - apply (proj1 (proj2 (ask_question_contract w_no_key nft_question)));
      reflexivity.
  - apply (proj2 (proj2 (ask_question_contract w_rag nft_question)));
      try reflexivity.
    intros docs H. vm_compute in H. injection H as <-. reflexivity.
Defined.

(** ** C2: rank order in the grounded prompt and in the sources *)

(** C2: when the Retriever returns the snippets [docs] (at least one, with
    texts [texts] in that order), the one completion request carries as user
    instruction the texts joined in that order by a blank line, followed by
    the question; and the sources of the result are, position by position,
    the entries built for the snippets, with the same similarity values. *)
Theorem grounded_prompt_keeps_rank_order w q t docs texts :
  semantic_search w q 5 = (t, Ok docs) ->
  docs <> [] ->
  map content docs = map Some texts ->
  forallb meta_ok docs = true ->
  exists r,
    generate_response w q =
    (t ++ [EvCreate "gpt-3.5-turbo"
             [ {| role := "system"; msg_content := grounded_system_prompt |};
               {| role := "user";
                  msg_content :=
                    "Context from Crossmint documentation:" +:+ nl
                    +:+ join_str (nl +:+ nl) texts +:+ nl +:+ nl
                    +:+ "Question: " +:+ q +:+ nl +:+ nl
                    +:+ "Please provide a helpful answer based on the documentation context above." |} ]
             0.1%float 800],
     Ok r)
    /\ Forall2 source_for docs (sources r)
    /\ map relevance_score (sources r) = map similarity docs.
Proof.
  intros Hs Hne Ht Hm.
  destruct (collect_context_ok docs [] [] Hm) as [srcs Hc]. simpl app in Hc.
  assert (Hj : join (nl +:+ nl) (map content docs)
               = Ok (join_str (nl +:+ nl) texts))
    by (rewrite Ht; apply join_some).
  rewrite (generate_response_grounded w q t docs _ srcs _ Hs Hne Hc Hj).
  apply collect_context_inv in Hc as (_ & new & Hnew & Hall).
  simpl in Hnew. subst new.
  assert (Hrel : map relevance_score srcs = map similarity docs).
  { clear -Hall. induction Hall as [|d s ds ss (m & _ & _ & _ & Hr) _ IH];
      simpl; [reflexivity|]. rewrite Hr, IH. reflexivity. }
  eexists. split; [reflexivity|].
  destruct (completion_text _); simpl; auto.
Qed.

Lemma grounded_prompt_keeps_rank_order_witness :
  exists r,
    generate_response w_rag "How do I create an NFT?" =
    ([EvEncode ["How do I create an NFT?"];
      EvQuery [[0.25%float; 0.5%float]] 5 include_fields;
      EvCreate "gpt-3.5-turbo"
        [ {| role := "system"; msg_content := grounded_system_prompt |};
          {| role := "user";
             msg_content :=
               "Context from Crossmint documentation:" +:+ nl
               +:+ "Mint with the API." +:+ nl +:+ nl +:+ "See the reference."
               +:+ nl +:+ nl
               +:+ "Question: How do I create an NFT?" +:+ nl +:+ nl
               +:+ "Please provide a helpful answer based on the documentation context above." |} ]
        0.1%float 800],
     Ok r)
    /\ Forall2 source_for (zip_docs [Some "Mint with the API.";
                                     Some "See the reference."]
                             [Some minting_guide; Some untitled_chunk]
                             [0.09%float; 0.23%float])
         (sources r)
    /\ map relevance_score (sources r) = [0.91%float; 0.77%float].
Proof.
  apply (grounded_prompt_keeps_rank_order w_rag "How do I create an NFT?"
           [EvEncode ["How do I create an NFT?"];
            EvQuery [[0.25%float; 0.5%float]] 5 include_fields]
           (zip_docs [Some "Mint with the API."; Some "See the reference."]
              [Some minting_guide; Some untitled_chunk]
              [0.09%float; 0.23%float])
           ["Mint with the API."; "See the reference."]).
  - vm_compute. reflexivity.
  - discriminate.
  - reflexivity.
  - reflexivity.
Defined.

(** ** C3: a failing Completer *)

(** C3: when the completion request raises [e], the pipeline returns a
    result of mode Error whose answer is non-empty and contains [str(e)].
    After an empty retrieval its sources are empty; after a retrieval of
    [docs] (at least one snippet) they are the entries built for all of
    [docs], in order. *)
Theorem completer_failure_gives_error_result w q t e :
  (semantic_search w q 5 = (t, Ok []) ->
   create_answer w (unaided_messages q) 600 = Raise e ->
   exists t' r, generate_response w q = (t', Ok r)
     /\ method r = method_Error
     /\ response r <> ""
     /\ contains (response r) (exn_str e)
     /\ sources r = [])
  /\ (forall docs texts,
        semantic_search w q 5 = (t, Ok docs) ->
        docs <> [] ->
        map content docs = map Some texts ->
        forallb meta_ok docs = true ->
        create_answer w (grounded_messages (join_str (nl +:+ nl) texts) q) 800
          = Raise e ->
        exists t' r, generate_response w q = (t', Ok r)
          /\ method r = method_Error
          /\ response r <> ""
          /\ contains (response r) (exn_str e)
          /\ sources r <> []
          /\ Forall2 source_for docs (sources r)).
Proof.
  split.
  - intros Hs He. rewrite (generate_response_unaided w q t Hs).
    unfold completion_text. rewrite He. simpl.
    eexists _, _. split; [reflexivity|]. simpl.
    repeat split; try discriminate. apply contains_middle.
  - intros docs texts Hs Hne Ht Hm He.
    destruct (collect_context_ok docs [] [] Hm) as [srcs Hc]. simpl app in Hc.
    assert (Hj : join (nl +:+ nl) (map content docs)
                 = Ok (join_str (nl +:+ nl) texts))
      by (rewrite Ht; apply join_some).
    rewrite (generate_response_grounded w q t docs _ srcs _ Hs Hne Hc Hj).
    unfold completion_text. rewrite He. simpl.
    apply collect_context_inv in Hc as (_ & new & Hnew & Hall).
    simpl in Hnew. subst new.
    eexists _, _. split; [reflexivity|]. simpl.
    repeat split; try discriminate; [apply contains_middle| |exact Hall].
    intros ->. inversion Hall. congruence.
Qed.

Lemma completer_failure_gives_error_result_witness :
  (exists t' r,
     generate_response w_no_index_failing "How do I create an NFT?" = (t', Ok r)
     /\ method r = method_Error
     /\ response r <> ""
     /\ contains (response r) "Rate limit reached for gpt-3.5-turbo"
     /\ sources r = [])
  /\ (exists t' r,
        generate_response w_rag_failing "How do I create an NFT?" = (t', Ok r)
        /\ method r = method_Error
        /\ response r <> ""
        /\ contains (response r) "Rate limit reached for gpt-3.5-turbo"
        /\ sources r <> []
        /\ Forall2 source_for
             (zip_docs [Some "Mint with the API."; Some "See the reference."]
                [Some minting_guide; Some untitled_chunk]
                [0.09%float; 0.23%float])
             (sources r)).
Proof.
  split.
  - apply (proj1 (completer_failure_gives_error_result w_no_index_failing
                    "How do I create an NFT?" [] rate_limited));
      reflexivity.
  - apply (proj2 (completer_failure_gives_error_result w_rag_failing
                    "How do I create an NFT?"
                    [EvEncode ["How do I create an NFT?"];
                     EvQuery [[0.25%float; 0.5%float]] 5 include_fields]
                    rate_limited)
             _ ["Mint with the API."; "See the reference."]).
    + vm_compute. reflexivity.
    + discriminate.
    + reflexivity.
    + reflexivity.
    + reflexivity.
Defined.

(** ** C4: the Retriever degrades to an empty result *)

(** C4: [semantic_search] always returns a list; the list is empty, and no
    collaborator is called, when the index or the embedder is missing; it
    is empty when the embedding raises, when the index lookup raises, and
    when formatting the index answer raises. *)
Theorem semantic_search_never_raises w q n :
  (exists docs, outcome (semantic_search w q n) = Ok docs)
  /\ (chroma_collection w = None \/ embedding_model w = None ->
      semantic_search w q n = ([], Ok []))
  /\ (forall coll enc,
        chroma_collection w = Some coll -> embedding_model w = Some enc ->
        (forall e, enc [q] = Raise e ->
           outcome (semantic_search w q n) = Ok [])
        /\ (forall emb e, enc [q] = Ok emb ->
              coll emb n include_fields = Raise e ->
              outcome (semantic_search w q n) = Ok [])
        /\ (forall emb results e, enc [q] = Ok emb ->
              coll emb n include_fields = Ok results ->
              rbind (getitem (documents results) 0)
                (fun b => format_results results (seq 0 (length b)) [])
                = Raise e ->
              outcome (semantic_search w q n) = Ok [])).
Proof.
  split; [apply semantic_search_outcome|]. split.
  - apply semantic_search_unavailable.
  - intros coll enc Hc He. repeat split.
    + intros e H. rewrite (semantic_search_encode_raise w q n coll enc Hc He e H).
      reflexivity.
    + intros emb e H1 H2.
      rewrite (semantic_search_query_raise w q n coll enc Hc He emb e H1 H2).
      reflexivity.
    + intros emb results e H1 H2 H3.
      rewrite (semantic_search_answered w q n coll enc Hc He emb results H1 H2).
      unfold formatted. rewrite H3. reflexivity.
Qed.

Lemma semantic_search_never_raises_witness :
  semantic_search w_no_index "mint" 5 = ([], Ok [])
  /\ outcome (semantic_search w_embed_failing "mint" 5) = Ok []
  /\ outcome (semantic_search w_index_failing "mint" 5) = Ok []
  /\ outcome (semantic_search w_short "mint" 5) = Ok [].
Proof.
  split; [|split; [|split]].
  - apply (proj1 (proj2 (semantic_search_never_raises w_no_index "mint" 5))).
    left. reflexivity.
  - eapply (proj1 (proj2 (proj2
              (semantic_search_never_raises w_embed_failing "mint" 5))
              _ _ eq_refl eq_refl)).
    reflexivity.
  - eapply (proj1 (proj2 (proj2 (proj2
              (semantic_search_never_raises w_index_failing "mint" 5))
              _ _ eq_refl eq_refl))); reflexivity.
  - eapply (proj2 (proj2 (proj2 (proj2
              (semantic_search_never_raises w_short "mint" 5))
              _ _ eq_refl eq_refl))) with (results := short_metadata);
      reflexivity.
Defined.

(** ** C5: the unaided path *)

(** C5, as stated, fails: with no snippets retrieved the result is not
    always of mode Fallback.  When the completion request raises, the mode
    is Error and there is no source. *)
Lemma C5_empty_retrieval_without_fallback :
  ~ (forall w q,
       truthy q = true ->
       outcome (semantic_search w q 5) = Ok [] ->
       exists r, outcome (generate_response w q) = Ok r
         /\ method r = method_Fallback
         /\ sources r = [general_knowledge]).
Proof.
  intros H.
  destruct (H w_no_index_failing "How do I create an NFT?" eq_refl eq_refl)
    as (r & Hr & Hm & _).
  vm_compute in Hr. injection Hr as <-. discriminate.
Qed.

(** C5 (amended): when retrieval yields no snippet the pipeline returns a
    result and never raises; if the completion request succeeds with a text,
    the result has mode Fallback, that text as answer, and exactly one
    source, titled "General Knowledge", with the documentation URL and
    relevance score 0.5; if the completion request fails, the result has
    mode Error and no source. *)
Theorem empty_retrieval_falls_back w q :
  outcome (semantic_search w q 5) = Ok [] ->
  exists r, outcome (generate_response w q) = Ok r
    /\ (forall text,
          completion_text (create_answer w (unaided_messages q) 600) = Ok text ->
          method r = "Fallback (General Knowledge)"
          /\ response r = text
          /\ sources r =
             [ {| title := "General Knowledge";
                  url := "https://docs.crossmint.com";
                  relevance_score := 0.5%float |} ])
    /\ (forall e,
          completion_text (create_answer w (unaided_messages q) 600) = Raise e ->
          method r = "Error" /\ sources r = []).
Proof.
  intros Hs. destruct (semantic_search w q 5) as [t o] eqn:Hss.
  simpl in Hs. subst o.
  rewrite (generate_response_unaided w q t Hss). simpl.
  eexists. split; [reflexivity|].
  destruct (completion_text _) as [text|e]; split.
  - intros text' [= <-]. auto.
  - discriminate.
  - discriminate.
  - intros e' _. auto.
Qed.

Lemma empty_retrieval_falls_back_witness :
  chroma_collection w_no_index = None
  /\ exists r,
       outcome (generate_response w_no_index "How do I create an NFT?") = Ok r
       /\ method r = "Fallback (General Knowledge)"
       /\ response r = "Use the /mint endpoint"
       /\ sources r =
          [ {| title := "General Knowledge";
               url := "https://docs.crossmint.com";
               relevance_score := 0.5%float |} ].
Proof.
  split; [reflexivity|].
  destruct (empty_retrieval_falls_back w_no_index "How do I create an NFT?"
              eq_refl) as (r & Hr & Hok & _).
  exists r. split; [exact Hr|]. apply Hok. reflexivity.
Defined.

(** ** C6: range of the similarity *)

(** C6, as stated, fails: the similarity of a returned snippet need not lie
    in the unit interval.  For the distance 1.5 it is -0.5. *)
Lemma C6_similarity_outside_unit_interval :
  ~ (forall w q n docs,
       outcome (semantic_search w q n) = Ok docs ->
       Forall (fun d => in_unit (similarity d) = true) docs).
Proof.
  intros H.
  pose proof (H w_far "mint" 5
                [ {| content := Some "Unrelated text.";
                     metadata := Some minting_guide;
                     similarity := (-0.5)%float |} ]
                eq_refl) as HF.
  apply Forall_inv in HF. discriminate HF.
Qed.

(** C6 (amended): when every distance the index returns lies in [0,1],
    every snippet the Retriever returns has its similarity in [0,1], and so
    has every relevance score in the sources of the pipeline's result. *)
Theorem similarity_in_unit_interval w q n coll enc emb results ss :
  chroma_collection w = Some coll ->
  embedding_model w = Some enc ->
  enc [q] = Ok emb ->
  coll emb n include_fields = Ok results ->
  distances results !! 0%nat = Some ss ->
  Forall (fun d => in_unit d = true) ss ->
  (exists docs, outcome (semantic_search w q n) = Ok docs
     /\ Forall (fun d => in_unit (similarity d) = true) docs)
  /\ (n = 5 -> forall r,
        outcome (generate_response w q) = Ok r ->
        Forall (fun s => in_unit (relevance_score s) = true) (sources r)).
Proof.
  intros Hc He H1 H2 Hss Hunit.
  pose proof (semantic_search_answered w q n coll enc Hc He emb results H1 H2)
    as Hs.
  assert (Hdocs : Forall (fun d => in_unit (similarity d) = true)
                    (formatted results)).
  { apply Forall_lookup_2. intros i doc Hi.
    destruct (formatted_lookup results ss i doc Hss Hi) as (d & Hd & ->).
    apply in_unit_one_minus.
    exact (Forall_lookup_1 _ _ _ _ Hunit Hd). }
  split.
  - exists (formatted results). rewrite Hs. auto.
  - intros -> r Hr.
    destruct (formatted results) as [|d0 docs'] eqn:Hf.
    + rewrite (generate_response_unaided w q _ Hs) in Hr. simpl in Hr.
      injection Hr as <-.
      destruct (completion_text _); simpl; repeat constructor.
    + destruct (generate_response_ok_inv w q _ _ r Hs ltac:(discriminate) Hr)
        as (cp & context & Hcc & _).
      apply collect_context_inv in Hcc as (_ & new & Hnew & Hall).
      simpl in Hnew. subst new.
      clear -Hall Hdocs. induction Hall as [|d s ds srcs Hsrc _ IH].
      * constructor.
      * apply Forall_cons in Hdocs as [Hd Hds].
        destruct Hsrc as (m & _ & _ & _ & Hrel).
        constructor; [rewrite Hrel; exact Hd|auto].
Qed.

Lemma similarity_in_unit_interval_witness :
  (exists docs, outcome (semantic_search w_rag "mint" 5) = Ok docs
     /\ Forall (fun d => in_unit (similarity d) = true) docs)
  /\ (5 = 5 -> forall r,
        outcome (generate_response w_rag "mint") = Ok r ->
        Forall (fun s => in_unit (relevance_score s) = true) (sources r)).
Proof.
  apply (similarity_in_unit_interval w_rag "mint" 5 _ _ _ two_hits
           [0.09%float; 0.23%float] eq_refl eq_refl eq_refl eq_refl eq_refl).
  repeat constructor.
Defined.

(** ** C7: the fan-out limit *)

(** C7: two requests with the same query get the same calls and the same
    reply whatever their [max_results]; every index lookup a request makes
    asks for 5 results; and the calls of a request that passes validation
    begin with those of the Retriever run with limit 5. *)
Theorem max_results_is_ignored w q m1 m2 :
  ask_question w {| query := q; max_results := m1 |}
  = ask_question w {| query := q; max_results := m2 |}
  /\ (forall emb k inc,
        In (EvQuery emb k inc)
           (fst (ask_question w {| query := q; max_results := m1 |})) ->
        k = 5)
  /\ (truthy (strip q) = true ->
      env_missing w "OPENAI_API_KEY" = false ->
      exists rest,
        fst (ask_question w {| query := q; max_results := m1 |})
        = calls (semantic_search w (strip q) 5) ++ rest).
Proof.
  split; [reflexivity|]. split.
  - intros emb k inc Hin.
    destruct (truthy (strip q)) eqn:Hq.
    2:{ unfold ask_question in Hin. simpl in Hin. rewrite Hq in Hin.
        destruct Hin. }
    destruct (env_missing w "OPENAI_API_KEY") eqn:Hk.
    1:{ unfold ask_question in Hin. simpl in Hin. rewrite Hq, Hk in Hin.
        destruct Hin. }
    rewrite ask_question_calls in Hin by assumption. simpl in Hin.
    destruct (generate_response_calls w (strip q)) as (rest & Hc & Hrest).
    rewrite Hc in Hin. apply in_app_or in Hin as [Hin|Hin].
    + apply semantic_search_calls in Hin as [Hin|[emb' Hin]]; congruence.
    + destruct Hrest as [->|(msgs & k' & ->)]; simpl in Hin.
      * destruct Hin.
      * destruct Hin as [Hin|[]]. discriminate.
  - intros Hq Hk. rewrite ask_question_calls by assumption. simpl.
    destruct (generate_response_calls w (strip q)) as (rest & Hc & _).
    eauto.
Qed.

(** ** C8: similarity is one minus the distance *)

(** C8: when the index answers with the distances [ss], the snippet at each
    position of the Retriever's output has similarity [1 - d] for the
    distance [d] at that position (binary64 subtraction); for the distance
    0.15 this is the float 0.85, hence within 2^-52 of it. *)
Theorem similarity_is_one_minus_distance w q n coll enc emb results ss docs :
  chroma_collection w = Some coll ->
  embedding_model w = Some enc ->
  enc [q] = Ok emb ->
  coll emb n include_fields = Ok results ->
  distances results !! 0%nat = Some ss ->
  outcome (semantic_search w q n) = Ok docs ->
  forall i doc, docs !! i = Some doc ->
  exists d, ss !! i = Some d
    /\ similarity doc = (1 - d)%float
    /\ (d = 0.15%float ->
        similarity doc = 0.85%float
        /\ (abs (similarity doc - 0.85) <=? 0x1p-52)%float = true).
Proof.
  intros Hc He H1 H2 Hss Hout i doc Hi.
  rewrite (semantic_search_answered w q n coll enc Hc He emb results H1 H2)
    in Hout.
  simpl in Hout. injection Hout as <-.
  destruct (formatted_lookup results ss i doc Hss Hi) as (d & Hd & Hsim).
  exists d. split; [exact Hd|]. split; [exact Hsim|].
  intros ->. rewrite Hsim. split; reflexivity.
Qed.

Lemma similarity_is_one_minus_distance_witness :
  exists doc,
    outcome (semantic_search w_near "mint" 5) = Ok [doc]
    /\ exists d, [0.15%float] !! 0%nat = Some d
         /\ similarity doc = (1 - d)%float
         /\ (d = 0.15%float ->
             similarity doc = 0.85%float
             /\ (abs (similarity doc - 0.85) <=? 0x1p-52)%float = true).
Proof.
  eexists. split; [vm_compute; reflexivity|].
  eapply (similarity_is_one_minus_distance w_near "mint" 5 _ _ _ near_hit
            [0.15%float] _ eq_refl eq_refl eq_refl eq_refl eq_refl eq_refl
            0%nat).
  reflexivity.
Defined.

(** ** C9: pairing the index answer by position *)

(** C9, as stated, fails: a result with a missing field is not dropped from
    the Retriever's output.  The second hit of [two_hits] has neither title
    nor url and is returned all the same. *)
Lemma C9_missing_fields_not_dropped :
  ~ (forall w q n docs,
       outcome (semantic_search w q n) = Ok docs ->
       Forall (fun d => exists m, metadata d = Some m
                          /\ is_Some (m !! "title") /\ is_Some (m !! "url"))
              docs).
Proof.
  intros H.
  pose proof (H w_rag "How do I create an NFT?" 5
                (zip_docs [Some "Mint with the API."; Some "See the reference."]
                   [Some minting_guide; Some untitled_chunk]
                   [0.09%float; 0.23%float])
                eq_refl) as HF.
  destruct (Forall_lookup_1 _ _ 1%nat
              {| content := Some "See the reference.";
                 metadata := Some untitled_chunk;
                 similarity := 0.77%float |} HF eq_refl)
    as (m & Hm & [v Hv] & _).
  injection Hm as <-. vm_compute in Hv. discriminate Hv.
Qed.

(** C9 (amended): the Retriever pairs the first batch of documents,
    metadata and distances by position, over the length of the document
    list.  When metadata and distances reach at least that far the output is
    exactly that pairing (surplus metadata and distances are ignored, and a
    result is kept whatever its metadata holds); when either is shorter the
    output is empty.  A kept snippet whose metadata has neither title nor
    url gets a source with the default title and url, not blank ones. *)
Theorem retriever_pairs_by_position
    w q n coll enc emb results ds ms ss :
  chroma_collection w = Some coll ->
  embedding_model w = Some enc ->
  enc [q] = Ok emb ->
  coll emb n include_fields = Ok results ->
  documents results !! 0%nat = Some ds ->
  metadatas results !! 0%nat = Some ms ->
  distances results !! 0%nat = Some ss ->
  outcome (semantic_search w q n)
  = Ok (if (length ds <=? length ms)%nat && (length ds <=? length ss)%nat
        then zip_docs ds ms ss else [])
  /\ (forall d m, metadata d = Some m ->
        m !! "title" = None -> m !! "url" = None ->
        collect_context [d] [] [] =
        Ok ([content d],
            [ {| title := "Crossmint Documentation";
                 url := "https://docs.crossmint.com";
                 relevance_score := similarity d |} ])).
Proof.
  intros Hc He H1 H2 Hds Hms Hss. split.
  - rewrite (semantic_search_answered w q n coll enc Hc He emb results H1 H2).
    simpl. f_equal. unfold formatted.
    rewrite (getitem_lookup _ _ _ Hds). simpl.
    destruct (length ds <=? length ms)%nat eqn:Hlm;
      [destruct (length ds <=? length ss)%nat eqn:Hls|]; simpl.
    + apply Nat.leb_le in Hlm, Hls.
      rewrite (format_results_zip results ds ms ss Hds Hms Hss
                 (length ds) 0%nat []) by lia.
      reflexivity.
    + apply Nat.leb_gt in Hls.
      rewrite (format_results_short results ds ms ss Hds Hms Hss
                 (length ds) 0%nat []) by lia.
      reflexivity.
    + apply Nat.leb_gt in Hlm.
      rewrite (format_results_short results ds ms ss Hds Hms Hss
                 (length ds) 0%nat []) by lia.
      reflexivity.
  - intros d m Hm Ht Hu. simpl. rewrite Hm. simpl. rewrite Ht, Hu.
    reflexivity.
Qed.

Lemma retriever_pairs_by_position_witness :
  outcome (semantic_search w_rag "mint" 5)
  = Ok [ {| content := Some "Mint with the API.";
            metadata := Some minting_guide; similarity := 0.91%float |};
         {| content := Some "See the reference.";
            metadata := Some untitled_chunk; similarity := 0.77%float |} ]
  /\ outcome (semantic_search w_short "mint" 5) = Ok [].
Proof.
  split.
  - apply (proj1 (retriever_pairs_by_position w_rag "mint" 5 _ _ _ two_hits
                    _ _ _ eq_refl eq_refl eq_refl eq_refl eq_refl eq_refl
                    eq_refl)).
  - apply (proj1 (retriever_pairs_by_position w_short "mint" 5 _ _ _
                    short_metadata _ _ _ eq_refl eq_refl eq_refl eq_refl
                    eq_refl eq_refl eq_refl)).
Defined.

(** ** C10: default title and url *)

(** C10: in a result of the grounded path every retrieved snippet has its
    source entry at the same position; when the snippet's metadata has no
    title the entry's title is "Crossmint Documentation", and when it has no
    url the entry's url is "https://docs.crossmint.com". *)
Theorem missing_title_and_url_get_defaults w q t docs r :
  semantic_search w q 5 = (t, Ok docs) ->
  docs <> [] ->
  outcome (generate_response w q) = Ok r ->
  length (sources r) = length docs
  /\ forall i d, docs !! i = Some d ->
     exists s m, sources r !! i = Some s
       /\ metadata d = Some m
       /\ (m !! "title" = None -> title s = "Crossmint Documentation")
       /\ (m !! "url" = None -> url s = "https://docs.crossmint.com")
       /\ relevance_score s = similarity d.
Proof.
  intros Hs Hne Hr.
  destruct (generate_response_ok_inv w q t docs r Hs Hne Hr)
    as (cp & context & Hc & _).
  apply collect_context_inv in Hc as (_ & new & Hnew & Hall).
  simpl in Hnew. subst new. split.
  - symmetry. exact (Forall2_length _ _ _ Hall).
  - intros i d Hd.
    destruct (Forall2_lookup_l _ _ _ _ _ Hall Hd)
      as (s & Hsrc & m & Hm & Ht & Hu & Hrel).
    exists s, m. repeat split; try assumption.
    + intros Hnone. rewrite Hnone in Ht. injection Ht as ->. reflexivity.
    + intros Hnone. rewrite Hnone in Hu. injection Hu as ->. reflexivity.
Qed.

Lemma missing_title_and_url_get_defaults_witness :
  exists r,
    outcome (generate_response w_rag "How do I create an NFT?") = Ok r
    /\ length (sources r) = 2%nat
    /\ exists s m,
         sources r !! 1%nat = Some s
         /\ Some untitled_chunk = Some m
         /\ (m !! "title" = None -> title s = "Crossmint Documentation")
         /\ (m !! "url" = None -> url s = "https://docs.crossmint.com")
         /\ relevance_score s = 0.77%float.
Proof.
  eexists. split; [vm_compute; reflexivity|].
  pose proof (missing_title_and_url_get_defaults w_rag
                "How do I create an NFT?"
                [EvEncode ["How do I create an NFT?"];
                 EvQuery [[0.25%float; 0.5%float]] 5 include_fields]
                (zip_docs [Some "Mint with the API."; Some "See the reference."]
                   [Some minting_guide; Some untitled_chunk]
                   [0.09%float; 0.23%float])
                _ eq_refl ltac:(discriminate) eq_refl) as [Hlen Hall].
  split; [exact Hlen|].
  exact (Hall 1%nat _ eq_refl).
Defined.

(** * Further properties of [main.py] *)

(** ** Trimming *)

Lemma rstrip_cons c s :
  rstrip (String c s)
  = match rstrip s with
    | EmptyString => if is_space c then EmptyString else String c EmptyString
    | r => String c r
    end.
Proof. reflexivity. Qed.

Lemma rstrip_idempotent s : rstrip (rstrip s) = rstrip s.
Proof.
  induction s as [|c s IH]; [reflexivity|].
  rewrite rstrip_cons. destruct (rstrip s) as [|a r] eqn:Hr.
  - destruct (is_space c) eqn:Hc; [reflexivity|].
    rewrite rstrip_cons. simpl. rewrite Hc. reflexivity.
  - rewrite rstrip_cons, IH. reflexivity.
Qed.

Lemma lstrip_head s :
  lstrip s = "" \/ exists c s', lstrip s = String c s' /\ is_space c = false.
Proof.
  induction s as [|c s IH]; simpl; [auto|].
  destruct (is_space c) eqn:Hc; [exact IH|]. right. eauto.
Qed.

Lemma lstrip_rstrip_head c s :
  is_space c = false -> lstrip (rstrip (String c s)) = rstrip (String c s).
Proof.
  intros Hc. rewrite rstrip_cons.
  destruct (rstrip s); rewrite ?Hc; simpl; rewrite Hc; reflexivity.
Qed.

Lemma strip_idempotent s : strip (strip s) = strip s.
Proof.
  unfold strip.
  destruct (lstrip_head s) as [->|(c & s' & -> & Hc)]; [reflexivity|].
  rewrite (lstrip_rstrip_head c s' Hc). apply rstrip_idempotent.
Qed.

(** X1: white space around the query never changes what a request does:
    the calls and the reply are those of the request carrying the trimmed
    query. *)
Theorem ask_question_ignores_outer_whitespace w q m :
  ask_question w {| query := q; max_results := m |}
  = ask_question w {| query := strip q; max_results := m |}.
Proof.
  unfold ask_question. simpl. rewrite strip_idempotent. reflexivity.
Qed.

(** ** The shape of a run *)

Lemma semantic_search_shape w q n :
  semantic_search w q n = ([], Ok [])
  \/ semantic_search w q n = ([EvEncode [q]], Ok [])
  \/ exists emb docs,
       semantic_search w q n
       = ([EvEncode [q]; EvQuery emb n include_fields], Ok docs).
Proof.
  destruct (chroma_collection w) as [coll|] eqn:Hc;
    [destruct (embedding_model w) as [enc|] eqn:He|].
  - destruct (enc [q]) as [emb|e] eqn:H1.
    + destruct (coll emb n include_fields) as [results|e] eqn:H2.
      * rewrite (semantic_search_answered w q n coll enc Hc He emb results H1 H2).
        eauto.
      * rewrite (semantic_search_query_raise w q n coll enc Hc He emb e H1 H2).
        eauto.
    + rewrite (semantic_search_encode_raise w q n coll enc Hc He e H1). auto.
  - left. apply semantic_search_unavailable. auto.
  - left. apply semantic_search_unavailable. auto.
Qed.

Lemma generate_response_shape w q :
  exists t docs,
    semantic_search w q 5 = (t, Ok docs)
    /\ ((docs = []
         /\ generate_response w q =
            (t ++ [create_event (unaided_messages q) 600],
             Ok match completion_text
                        (create_answer w (unaided_messages q) 600) with
                | Ok text => fallback_ok_response w q text
                | Raise e => error_response_unaided w q e
                end))
        \/ (docs <> [] /\ exists e, generate_response w q = (t, Raise e))
        \/ (docs <> []
            /\ exists cp srcs context,
                 collect_context docs [] [] = Ok (cp, srcs)
                 /\ join (nl +:+ nl) cp = Ok context
                 /\ generate_response w q =
                    (t ++ [create_event (grounded_messages context q) 800],
                     Ok match completion_text
                                (create_answer w
                                   (grounded_messages context q) 800) with
                        | Ok text => rag_response w q text srcs
                        | Raise e => error_response_grounded w q e srcs
                        end))).
Proof.
  destruct (semantic_search_outcome w q 5) as [docs Hd].
  destruct (semantic_search w q 5) as [t o] eqn:Hs. simpl in Hd. subst o.
  exists t, docs. split; [reflexivity|].
  destruct docs as [|d0 docs'].
  - left. split; [reflexivity|]. apply generate_response_unaided, Hs.
  - right.
    destruct (collect_context (d0 :: docs') [] []) as [[cp srcs]|e] eqn:Hc.
    + destruct (join (nl +:+ nl) cp) as [context|e] eqn:Hj.
      * right. split; [discriminate|]. exists cp, srcs, context.
        repeat split; try assumption.
        apply (generate_response_grounded w q t _ cp srcs context Hs
                 ltac:(discriminate) Hc Hj).
      * left. split; [discriminate|]. exists e.
        apply (generate_response_join_raise w q t _ cp srcs e Hs
                 ltac:(discriminate) Hc Hj).
    + left. split; [discriminate|]. exists e.
      apply (generate_response_collect_raise w q t _ e Hs
               ltac:(discriminate) Hc).
Qed.

(** What [ask_question] does once the request has passed validation. *)
Lemma ask_question_validated w request :
  truthy (strip (query request)) = true ->
  env_missing w "OPENAI_API_KEY" = false ->
  ask_question w request =
  match generate_response w (strip (query request)) with
  | (t, Ok r) => (t, Returned r)
  | (t, Raise e) =>
      (t, HTTPException 500 ("Error processing query: " +:+ exn_str e))
  end.
Proof. intros Hq Hk. unfold ask_question. rewrite Hq, Hk. reflexivity. Qed.

Lemma ask_question_returned w request t r :
  ask_question w request = (t, Returned r) ->
  truthy (strip (query request)) = true
  /\ env_missing w "OPENAI_API_KEY" = false.
Proof.
  intros H. unfold ask_question in H.
  destruct (truthy (strip (query request))); [|discriminate H].
  destruct (env_missing w "OPENAI_API_KEY"); [discriminate H|]. auto.
Qed.

(** ** Status codes *)

(** X2: the 400 is kept for blank queries: a request is answered with a
    400 exactly when its query is empty after trimming, and every other
    [HTTPException] the endpoint raises is a 500. *)
Theorem client_error_only_for_blank_query w request :
  (truthy (strip (query request)) = false
   <-> exists t d, ask_question w request = (t, HTTPException 400 d))
  /\ (forall t c d,
        ask_question w request = (t, HTTPException c d) ->
        c = 400 \/ c = 500).
Proof.
  destruct (truthy (strip (query request))) eqn:Hq.
  - destruct (env_missing w "OPENAI_API_KEY") eqn:Hk.
    + assert (Ha : ask_question w request
                   = ([], HTTPException 500 "OpenAI API key not configured"))
        by (unfold ask_question; rewrite Hq, Hk; reflexivity).
      rewrite Ha. split; [split; [discriminate|]|].
      * intros (t & d & [=]).
      * intros t c d [= _ <- _]. auto.
    + rewrite (ask_question_validated w request Hq Hk).
      destruct (generate_response w _) as [t [r|e]].
      * split; [split; [discriminate|intros (t' & d & [=])]|].
        intros t' c d [=].
      * split; [split; [discriminate|intros (t' & d & [=])]|].
        intros t' c d [= _ <- _]. auto.
  - assert (Ha : ask_question w request
                 = ([], HTTPException 400 "Query cannot be empty"))
      by (unfold ask_question; rewrite Hq; reflexivity).
    rewrite Ha. split; [split; eauto|].
    intros t c d [= _ <- _]. auto.
Qed.

(** ** Calls made by a request *)

(** X3: a request that ends in an [HTTPException] has made no completion
    request: whatever fails the request fails it before the Completer is
    called. *)
Theorem failed_request_makes_no_completion_call w request t c d :
  ask_question w request = (t, HTTPException c d) ->
  Forall (fun ev => is_create ev = false) t.
Proof.
  intros H.
  destruct (truthy (strip (query request))) eqn:Hq.
  2:{ unfold ask_question in H. rewrite Hq in H. injection H as <- _ _.
      constructor. }
  destruct (env_missing w "OPENAI_API_KEY") eqn:Hk.
  1:{ unfold ask_question in H. rewrite Hq, Hk in H. injection H as <- _ _.
      constructor. }
  rewrite (ask_question_validated w request Hq Hk) in H.
  destruct (generate_response_shape w (strip (query request)))
    as (t0 & docs & Hs & [[_ Hg]|[[_ [e Hg]]|[_ (cp & srcs & ctx & _ & _ & Hg)]]]);
    rewrite Hg in H; try discriminate H.
  injection H as <- _ _.
  destruct (semantic_search_shape w (strip (query request)) 5)
    as [Hss|[Hss|(emb & docs' & Hss)]];
    rewrite Hss in Hs; injection Hs as <- _; repeat constructor.
Qed.

Lemma failed_request_makes_no_completion_call_witness :
  Forall (fun ev => is_create ev = false)
    [EvEncode ["How do I create an NFT?"];
     EvQuery [[0.25%float; 0.5%float]] 5 include_fields].
Proof.
  apply (failed_request_makes_no_completion_call w_bare nft_question _ 500
           "Error processing query: 'NoneType' object has no attribute 'get'").
  vm_compute. reflexivity.
Defined.

(** X4: a request makes at most three calls, in this order: one embedding
    of the trimmed query, one index lookup for 5 results with that
    embedding's answer, and one completion request to gpt-3.5-turbo at
    temperature 0.1, with at most 600 tokens for the unaided prompt or 800
    for a grounded one.  Nothing is called twice. *)
Theorem calls_of_a_request w request :
  exists retrieval completion,
    fst (ask_question w request) = retrieval ++ completion
    /\ (retrieval = []
        \/ retrieval = [EvEncode [strip (query request)]]
        \/ exists emb,
             retrieval = [EvEncode [strip (query request)];
                          EvQuery emb 5 ["documents"; "metadatas"; "distances"]])
    /\ (completion = []
        \/ completion =
           [EvCreate "gpt-3.5-turbo" (unaided_messages (strip (query request)))
              0.1%float 600]
        \/ exists context,
             completion =
             [EvCreate "gpt-3.5-turbo"
                (grounded_messages context (strip (query request)))
                0.1%float 800]).
Proof.
  destruct (truthy (strip (query request))) eqn:Hq.
  2:{ exists [], []. unfold ask_question. rewrite Hq. auto. }
  destruct (env_missing w "OPENAI_API_KEY") eqn:Hk.
  1:{ exists [], []. unfold ask_question. rewrite Hq, Hk. auto. }
  rewrite ask_question_calls by assumption.
  set (q := strip (query request)).
  assert (Hret : forall t docs, semantic_search w q 5 = (t, Ok docs) ->
            t = [] \/ t = [EvEncode [q]]
            \/ exists emb, t = [EvEncode [q];
                                EvQuery emb 5 ["documents"; "metadatas"; "distances"]]).
  { intros t docs Hs.
    destruct (semantic_search_shape w q 5) as [Hss|[Hss|(emb & docs' & Hss)]];
      rewrite Hss in Hs; injection Hs as <- _; eauto. }
  destruct (generate_response_shape w q)
    as (t0 & docs & Hs & [[_ Hg]|[[_ [e Hg]]|[_ (cp & srcs & ctx & _ & _ & Hg)]]]);
    rewrite Hg; simpl.
  - exists t0, [create_event (unaided_messages q) 600].
    split; [reflexivity|]. split; [eapply Hret, Hs|]. auto.
  - exists t0, []. rewrite app_nil_r.
    split; [reflexivity|]. split; [eapply Hret, Hs|]. auto.
  - exists t0, [create_event (grounded_messages ctx q) 800].
    split; [reflexivity|]. split; [eapply Hret, Hs|]. eauto.
Qed.

(** ** What a result carries *)

(** X5: the mode of a result tells where its sources come from.  A RAG
    result has one source per retrieved snippet, in order, and there is at
    least one; a Fallback result comes from an empty retrieval and has the
    synthetic "General Knowledge" source alone; an Error result has the
    sources of the snippets retrieved, none when nothing was retrieved. *)
Theorem mode_determines_sources w q r :
  outcome (generate_response w q) = Ok r ->
  exists docs,
    outcome (semantic_search w q 5) = Ok docs
    /\ ((method r = "RAG (Full Knowledge Base)"
         /\ docs <> [] /\ Forall2 source_for docs (sources r))
        \/ (method r = "Fallback (General Knowledge)"
            /\ docs = [] /\ sources r = [general_knowledge])
        \/ (method r = "Error"
            /\ Forall2 source_for docs (sources r))).
Proof.
  intros Hr.
  destruct (generate_response_shape w q)
    as (t0 & docs & Hs & [[Hnil Hg]|[[_ [e Hg]]|[Hne (cp & srcs & ctx & Hc & _ & Hg)]]]);
    rewrite Hg in Hr; simpl in Hr; try discriminate Hr;
    injection Hr as <-; exists docs; rewrite Hs;
    (split; [reflexivity|]).
  - subst docs. destruct (completion_text _); simpl; auto.
  - apply collect_context_inv in Hc as (_ & new & Hnew & Hall).
    simpl in Hnew. subst new.
    destruct (completion_text _); simpl; auto.
Qed.

Lemma mode_determines_sources_witness :
  exists docs,
    outcome (semantic_search w_rag_failing "mint" 5) = Ok docs
    /\ ((method_Error = "RAG (Full Knowledge Base)"
         /\ docs <> []
         /\ Forall2 source_for docs
              [ {| title := "Minting Guide";
                   url := "https://docs.crossmint.com/minting";
                   relevance_score := 0.91%float |};
                {| title := "Crossmint Documentation";
                   url := "https://docs.crossmint.com";
                   relevance_score := 0.77%float |} ])
        \/ (method_Error = "Fallback (General Knowledge)"
            /\ docs = []
            /\ [ {| title := "Minting Guide";
                    url := "https://docs.crossmint.com/minting";
                    relevance_score := 0.91%float |};
                 {| title := "Crossmint Documentation";
                    url := "https://docs.crossmint.com";
                    relevance_score := 0.77%float |} ] = [general_knowledge])
        \/ (method_Error = "Error"
            /\ Forall2 source_for docs
                 [ {| title := "Minting Guide";
                      url := "https://docs.crossmint.com/minting";
                      relevance_score := 0.91%float |};
                   {| title := "Crossmint Documentation";
                      url := "https://docs.crossmint.com";
                      relevance_score := 0.77%float |} ])).
Proof.
  apply (mode_determines_sources w_rag_failing "mint"
           (error_response_grounded w_rag_failing "mint" rate_limited
              [ {| title := "Minting Guide";
                   url := "https://docs.crossmint.com/minting";
                   relevance_score := 0.91%float |};
                {| title := "Crossmint Documentation";
                   url := "https://docs.crossmint.com";
                   relevance_score := 0.77%float |} ])).
  vm_compute. reflexivity.
Defined.

(** X6: a reply is returned only to a request that passed both checks, and
    it echoes the trimmed query and carries the time of the clock. *)
Theorem returned_result_echoes_query w request t r :
  ask_question w request = (t, Returned r) ->
  truthy (strip (query request)) = true
  /\ env_missing w "OPENAI_API_KEY" = false
  /\ resp_query r = strip (query request)
  /\ timestamp r = now_isoformat w.
Proof.
  intros H. destruct (ask_question_returned w request t r H) as [Hq Hk].
  split; [exact Hq|]. split; [exact Hk|].
  rewrite (ask_question_validated w request Hq Hk) in H.
  destruct (generate_response_shape w (strip (query request)))
    as (t0 & docs & Hs & [[_ Hg]|[[_ [e Hg]]|[_ (cp & srcs & ctx & _ & _ & Hg)]]]);
    rewrite Hg in H; try discriminate H; injection H as _ <-;
    destruct (completion_text _); simpl; auto.
Qed.

Lemma returned_result_echoes_query_witness :
  truthy (strip (query nft_question)) = true
  /\ env_missing w_no_index "OPENAI_API_KEY" = false
  /\ resp_query (fallback_ok_response w_no_index "How do I create an NFT?"
                   "Use the /mint endpoint")
     = strip (query nft_question)
  /\ timestamp (fallback_ok_response w_no_index "How do I create an NFT?"
                  "Use the /mint endpoint")
     = now_isoformat w_no_index.
Proof.
  apply (returned_result_echoes_query w_no_index nft_question
           [create_event (unaided_messages "How do I create an NFT?") 600]).
  vm_compute. reflexivity.
Defined.

(** ** Degraded retrieval and unusable completions *)

(** X7: a retrieval that comes back empty, because the embedder or the
    index raised or because the index had nothing to give, leads to the
    very result the pipeline gives when there is no index at all, where its
    only call is the unaided completion request. *)
Theorem empty_retrieval_as_without_index w q :
  outcome (semantic_search w q 5) = Ok [] ->
  outcome (generate_response w q)
  = outcome (generate_response (without_index w) q)
  /\ calls (generate_response (without_index w) q)
     = [EvCreate "gpt-3.5-turbo" (unaided_messages q) 0.1%float 600].
Proof.
  intros Hs. destruct (semantic_search w q 5) as [t o] eqn:Hss.
  simpl in Hs. subst o.
  rewrite (generate_response_unaided w q t Hss).
  rewrite (generate_response_unaided (without_index w) q []
             (semantic_search_unavailable (without_index w) q 5
                (or_introl eq_refl))).
  split; reflexivity.
Qed.

Lemma empty_retrieval_as_without_index_witness :
  outcome (generate_response w_index_failing "mint")
  = outcome (generate_response (without_index w_index_failing) "mint")
  /\ calls (generate_response (without_index w_index_failing) "mint")
     = [EvCreate "gpt-3.5-turbo" (unaided_messages "mint") 0.1%float 600].
Proof.
  apply (empty_retrieval_as_without_index w_index_failing "mint").
  reflexivity.
Defined.

(** X8: a completion that cannot be used is reported in band.  When the
    service answers every request with a completion whose list of choices
    is empty, or whose first choice has no text, every result the pipeline
    returns has mode Error; with no choice at all its answer quotes
    "list index out of range". *)
Theorem unusable_completion_is_error w q c r :
  (forall msgs k, create_answer w msgs k = Ok c) ->
  choices c = [] \/ (exists rest, choices c = None :: rest) ->
  outcome (generate_response w q) = Ok r ->
  method r = "Error"
  /\ (choices c = [] -> contains (response r) "list index out of range").
Proof.
  intros Hans Hbad Hr.
  assert (Htext : forall msgs k,
            exists e, completion_text (create_answer w msgs k) = Raise e
              /\ (choices c = [] -> exn_str e = "list index out of range")).
  { intros msgs k. rewrite Hans. unfold completion_text, first_content. simpl.
    destruct Hbad as [->|[rest ->]]; simpl; eexists; split; try reflexivity.
    discriminate. }
  destruct (generate_response_shape w q)
    as (t0 & docs & Hs & [[_ Hg]|[[_ [e Hg]]|[_ (cp & srcs & ctx & _ & _ & Hg)]]]);
    rewrite Hg in Hr; simpl in Hr; try discriminate Hr; injection Hr as <-.
  - destruct (Htext (unaided_messages q) 600) as (e & -> & He). simpl.
    split; [reflexivity|]. intros Hc. rewrite (He Hc). apply contains_middle.
  - destruct (Htext (grounded_messages ctx q) 800) as (e & -> & He). simpl.
    split; [reflexivity|]. intros Hc. rewrite (He Hc). apply contains_middle.
Qed.

Lemma unusable_completion_is_error_witness :
  method (error_response_unaided w_no_choice "mint" index_error) = "Error"
  /\ (@nil (option string) = [] ->
      contains (response (error_response_unaided w_no_choice "mint" index_error))
        "list index out of range").
Proof.
  apply (unusable_completion_is_error w_no_choice "mint" {| choices := [] |}).
  - reflexivity.
  - left. reflexivity.
  - reflexivity.
Defined.

(** ** What the Retriever reads of the index answer *)

Lemma format_results_contents results idxs : forall acc docs,
  format_results results idxs acc = Ok docs ->
  exists new, docs = acc ++ new
    /\ Forall2 (fun i doc =>
                  exists ds, documents results !! 0%nat = Some ds
                    /\ ds !! i = Some (content doc)) idxs new.
Proof.
  induction idxs as [|i rest IH]; intros acc docs H.
  - simpl in H. injection H as <-. exists []. rewrite app_nil_r. auto.
  - simpl in H. unfold getitem in H at 1.
    destruct (documents results !! 0%nat) as [ds|] eqn:Hds; simpl in H;
      [|discriminate].
    unfold getitem in H at 1.
    destruct (ds !! i) as [c|] eqn:Hc; simpl in H; [|discriminate].
    destruct (rbind (getitem (metadatas results) 0) _) as [m|]; simpl in H;
      [|discriminate].
    destruct (rbind (getitem (distances results) 0) _) as [d|]; simpl in H;
      [|discriminate].
    apply IH in H as (new & -> & Hall).
    eexists (_ :: new). rewrite <- app_assoc. split; [reflexivity|].
    constructor; [|exact Hall]. exists ds. auto.
Qed.

Lemma formatted_contents results ds :
  documents results !! 0%nat = Some ds ->
  formatted results = [] \/ map content (formatted results) = ds.
Proof.
  intros Hds. unfold formatted. rewrite (getitem_lookup _ _ _ Hds). simpl.
  destruct (format_results results (seq 0 (length ds)) []) as [docs|] eqn:Hf;
    [|auto].
  right. apply format_results_contents in Hf as (new & -> & Hall). simpl.
  pose proof (Forall2_length _ _ _ Hall) as Hlen. rewrite length_seq in Hlen.
  apply list_eq. intros i. rewrite list_lookup_fmap.
  destruct (new !! i) as [doc|] eqn:Hi; simpl.
  - destruct (Forall2_lookup_r _ _ _ _ _ Hall Hi)
      as (j & Hj & ds' & Hds' & Hc).
    apply lookup_seq in Hj as [-> _]. simpl in Hc.
    rewrite Hds in Hds'. injection Hds' as <-. symmetry. exact Hc.
  - symmetry. apply lookup_ge_None. apply lookup_ge_None in Hi. lia.
Qed.

(** X9: retrieval is all or nothing.  A non-empty output of the Retriever
    comes from an index answer and holds, in order, exactly the documents of
    that answer's first batch: never a part of them. *)
Theorem retrieval_is_all_or_nothing w q n docs :
  outcome (semantic_search w q n) = Ok docs ->
  docs = []
  \/ exists coll enc emb results ds,
       chroma_collection w = Some coll
       /\ embedding_model w = Some enc
       /\ enc [q] = Ok emb
       /\ coll emb n include_fields = Ok results
       /\ documents results !! 0%nat = Some ds
       /\ map content docs = ds.
Proof.
  intros H.
  destruct (chroma_collection w) as [coll|] eqn:Hc;
    [destruct (embedding_model w) as [enc|] eqn:He|].
  - destruct (enc [q]) as [emb|e] eqn:H1.
    + destruct (coll emb n include_fields) as [results|e] eqn:H2.
      * rewrite (semantic_search_answered w q n coll enc Hc He emb results H1 H2)
          in H.
        simpl in H. injection H as <-.
        destruct (documents results !! 0%nat) as [ds|] eqn:Hds.
        -- destruct (formatted_contents results ds Hds) as [->|Hm]; [auto|].
           right. exists coll, enc, emb, results, ds. auto 10.
        -- left. unfold formatted. unfold getitem. rewrite Hds. reflexivity.
      * rewrite (semantic_search_query_raise w q n coll enc Hc He emb e H1 H2)
          in H.
        injection H as <-. auto.
    + rewrite (semantic_search_encode_raise w q n coll enc Hc He e H1) in H.
      injection H as <-. auto.
  - rewrite semantic_search_unavailable in H by auto. injection H as <-. auto.
  - rewrite semantic_search_unavailable in H by auto. injection H as <-. auto.
Qed.

Lemma retrieval_is_all_or_nothing_witness :
  zip_docs [Some "Mint with the API."; Some "See the reference."]
    [Some minting_guide; Some untitled_chunk] [0.09%float; 0.23%float] = []
  \/ exists coll enc emb results ds,
       chroma_collection w_rag = Some coll
       /\ embedding_model w_rag = Some enc
       /\ enc ["mint"] = Ok emb
       /\ coll emb 5 include_fields = Ok results
       /\ documents results !! 0%nat = Some ds
       /\ map content
            (zip_docs [Some "Mint with the API."; Some "See the reference."]
               [Some minting_guide; Some untitled_chunk]
               [0.09%float; 0.23%float]) = ds.
Proof.
  apply (retrieval_is_all_or_nothing w_rag "mint" 5). reflexivity.
Defined.

Lemma getitem_take_1 {A} (l : list A) : getitem (take 1 l) 0 = getitem l 0.
Proof. destruct l; reflexivity. Qed.

Lemma format_results_first_batch results idxs : forall acc,
  format_results (first_batch_only results) idxs acc
  = format_results results idxs acc.
Proof.
  induction idxs as [|i rest IH]; intros acc; [reflexivity|].
  simpl. rewrite !getitem_take_1.
  destruct (rbind (getitem (documents results) 0) _); simpl; [|reflexivity].
  destruct (rbind (getitem (metadatas results) 0) _); simpl; [|reflexivity].
  destruct (rbind (getitem (distances results) 0) _); simpl; [|reflexivity].
  apply IH.
Qed.

(** X10: only the first batch of the index answer is read: the Retriever
    returns what it would return had the index sent that batch alone. *)
Theorem only_first_batch_is_read w q n coll enc emb results :
  chroma_collection w = Some coll ->
  embedding_model w = Some enc ->
  enc [q] = Ok emb ->
  coll emb n include_fields = Ok results ->
  outcome (semantic_search w q n) = Ok (formatted (first_batch_only results)).
Proof.
  intros Hc He H1 H2.
  rewrite (semantic_search_answered w q n coll enc Hc He emb results H1 H2).
  simpl. f_equal. unfold formatted.
  change (documents (first_batch_only results))
    with (take 1 (documents results)).
  rewrite getitem_take_1.
  destruct (getitem (documents results) 0) as [b|]; simpl; [|reflexivity].
  rewrite format_results_first_batch. reflexivity.
Qed.

Lemma only_first_batch_is_read_witness :
  outcome (semantic_search w_two_batches "mint" 5)
  = Ok (formatted (first_batch_only two_batches))
  /\ formatted (first_batch_only two_batches)
     = [ {| content := Some "Mint with the API.";
            metadata := Some minting_guide;
            similarity := 0.85%float |} ].
Proof.
  split; [|reflexivity].
  apply (only_first_batch_is_read w_two_batches "mint" 5 _ _ _ two_batches
           eq_refl eq_refl eq_refl eq_refl).
Defined.

(** ** Start-up and the health probe *)

Lemma lifespan_ok s model :
  SentenceTransformer s "all-MiniLM-L6-v2" = Ok model ->
  exists g, lifespan s = Ok g
    /\ g_embedding_model g = Some model
    /\ (forall c,
          g_chroma_collection g = Some c
          <-> exists client names n,
                PersistentClient s "./chroma_db_free" = Ok client
                /\ list_collections client = Ok names
                /\ get_collection client "crossmint_docs" = Ok c
                /\ coll_count c = Ok n)
    /\ (g_chroma_client g = None <-> g_chroma_collection g = None).
Proof.
  intros Hm. unfold lifespan. rewrite Hm. simpl.
  destruct (PersistentClient s "./chroma_db_free") as [client|e]; simpl.
  2:{ eexists. split; [reflexivity|]. simpl. split; [reflexivity|].
      split; [|tauto]. intros c. split; [discriminate|].
      intros (cl & names & n & [=] & _). }
  destruct (list_collections client) as [names|e] eqn:Hl; simpl.
  2:{ eexists. split; [reflexivity|]. simpl. split; [reflexivity|].
      split; [|tauto]. intros c. split; [discriminate|].
      intros (cl & names & n & [= <-] & Hl' & _). congruence. }
  destruct (get_collection client "crossmint_docs") as [coll|e] eqn:Hg; simpl.
  2:{ eexists. split; [reflexivity|]. simpl. split; [reflexivity|].
      split; [|tauto]. intros c. split; [discriminate|].
      intros (cl & names' & n & [= <-] & _ & Hg' & _). congruence. }
  destruct (coll_count coll) as [n|e] eqn:Hn; simpl.
  2:{ eexists. split; [reflexivity|]. simpl. split; [reflexivity|].
      split; [|tauto]. intros c. split; [discriminate|].
      intros (cl & names' & n & [= <-] & _ & Hg' & Hn').
      rewrite Hg in Hg'. injection Hg' as <-. congruence. }
  eexists. split; [reflexivity|]. simpl. split; [reflexivity|].
  split; [|split; discriminate].
  intros c. split.
  - intros [= <-]. exists client, names, n. auto.
  - intros (cl & names' & n' & [= <-] & _ & Hg' & _). congruence.
Qed.

Lemma lifespan_inv s g :
  lifespan s = Ok g ->
  exists model,
    g_embedding_model g = Some model
    /\ (forall c,
          g_chroma_collection g = Some c
          <-> exists client names n,
                PersistentClient s "./chroma_db_free" = Ok client
                /\ list_collections client = Ok names
                /\ get_collection client "crossmint_docs" = Ok c
                /\ coll_count c = Ok n)
    /\ (g_chroma_client g = None <-> g_chroma_collection g = None).
Proof.
  intros Hl.
  destruct (SentenceTransformer s "all-MiniLM-L6-v2") as [model|e] eqn:Hm.
  2:{ unfold lifespan in Hl. rewrite Hm in Hl. discriminate Hl. }
  destruct (lifespan_ok s model Hm) as (g' & Hl' & H).
  rewrite Hl in Hl'. injection Hl' as <-. eauto.
Qed.

(** X11: the server fails to start exactly when the embedding model
    cannot be loaded; no failure of the vector store (client, listing,
    collection, count) stops it. *)
Theorem startup_fails_only_without_model s :
  (exists e, lifespan s = Raise e)
  <-> (exists e, SentenceTransformer s "all-MiniLM-L6-v2" = Raise e).
Proof.
  destruct (SentenceTransformer s "all-MiniLM-L6-v2") as [model|e] eqn:Hm.
  - destruct (lifespan_ok s model Hm) as (g & -> & _).
    split; intros [e' [=]].
  - unfold lifespan. rewrite Hm. simpl. split; eauto.
Qed.



(** X13: the probe swallows a failing [count()]: it always answers
    "healthy", reports a document count exactly when the collection is set
    and can be counted, and still reports [rag_available] for a collection
    that cannot. *)
Theorem probe_never_fails g :
  status (health_check g) = "healthy"
  /\ (forall n,
        document_count (health_check g) = Some n
        <-> exists c, g_chroma_collection g = Some c /\ coll_count c = Ok n)
  /\ (forall c e,
        g_chroma_collection g = Some c -> coll_count c = Raise e ->
        rag_available (health_check g) = true
        /\ document_count (health_check g) = None).
Proof.
  unfold health_check. simpl. split; [reflexivity|]. split.
  - intros n. destruct (g_chroma_collection g) as [c|].
    + destruct (coll_count c) as [k|e] eqn:Hk; split.
      * intros [= <-]. eauto.
      * intros (c' & [= <-] & Hk'). congruence.
      * discriminate.
      * intros (c' & [= <-] & Hk'). congruence.
    + split; [discriminate|]. intros (c' & [=] & _).
  - intros c e -> ->. auto.
Qed.

(** X14: when the probe reports no RAG, no request is answered in RAG
    mode, whatever the environment and the completion service: a returned
    result has mode Fallback or Error, and the one call made for it is the
    unaided completion request for the trimmed query. *)
Theorem no_rag_when_probe_says_so g env create now request t r :
  rag_available (health_check g) = false ->
  ask_question (request_world g env create now) request = (t, Returned r) ->
  (method r = "Fallback (General Knowledge)" \/ method r = "Error")
  /\ t = [EvCreate "gpt-3.5-turbo" (unaided_messages (strip (query request)))
            0.1%float 600].
Proof.
  intros Hrag H.
  assert (Hnone : chroma_collection (request_world g env create now) = None).
  { unfold health_check in Hrag. simpl in Hrag. simpl.
    destruct (g_chroma_collection g); [discriminate|reflexivity]. }
  destruct (ask_question_returned _ _ _ _ H) as [Hq Hk].
  rewrite (ask_question_validated _ request Hq Hk) in H.
  rewrite (generate_response_unaided _ _ []
             (semantic_search_unavailable _ _ 5 (or_introl Hnone))) in H.
  injection H as <- <-. split; [|reflexivity].
  destruct (completion_text _); simpl; auto.
Qed.

Lemma no_rag_when_probe_says_so_witness :
  (method (fallback_ok_response w_no_index "How do I create an NFT?"
             "Use the /mint endpoint") = "Fallback (General Knowledge)"
   \/ method (fallback_ok_response w_no_index "How do I create an NFT?"
                "Use the /mint endpoint") = "Error")
  /\ [create_event (unaided_messages "How do I create an NFT?") 600]
     = [EvCreate "gpt-3.5-turbo"
          (unaided_messages (strip (query nft_question))) 0.1%float 600].
Proof.
  apply (no_rag_when_probe_says_so globals_no_index env_with_key
           (fun _ _ _ _ => answer_ok) "2024-05-01T12:00:00" nft_question).
  - reflexivity.
  - vm_compute. reflexivity.
Defined.

(** X15: after start-up, a probe that reports RAG means retrieval is
    attempted: the Retriever begins every search by embedding the query
    (its early return for a missing resource is not taken). *)
Theorem rag_probe_means_retrieval_is_attempted s g env create now q n :
  lifespan s = Ok g ->
  rag_available (health_check g) = true ->
  exists rest,
    calls (semantic_search (request_world g env create now) q n)
    = EvEncode [q] :: rest.
Proof.
  intros Hl Hrag.
  destruct (lifespan_inv s g Hl) as (model & Hm & _).
  unfold health_check in Hrag. simpl in Hrag.
  destruct (g_chroma_collection g) as [c|] eqn:Hc; [|discriminate].
  set (w := request_world g env create now).
  assert (Hwc : chroma_collection w = Some (coll_query c))
    by (simpl; rewrite Hc; reflexivity).
  assert (Hwm : embedding_model w = Some model) by exact Hm.
  destruct (model [q]) as [emb|e] eqn:H1.
  - destruct (coll_query c emb n include_fields) as [results|e] eqn:H2.
    + rewrite (semantic_search_answered w q n _ _ Hwc Hwm emb results H1 H2).
      simpl. eauto.
    + rewrite (semantic_search_query_raise w q n _ _ Hwc Hwm emb e H1 H2).
      simpl. eauto.
  - rewrite (semantic_search_encode_raise w q n _ _ Hwc Hwm e H1).
    simpl. eauto.
Qed.

Lemma rag_probe_means_retrieval_is_attempted_witness :
  exists rest,
    calls (semantic_search
             (request_world
                {| g_embedding_model := Some good_embedder;
                   g_chroma_client := Some (client_with docs_collection);
                   g_chroma_collection := Some docs_collection |}
                env_with_key (fun _ _ _ _ => answer_ok) "2024-05-01T12:00:00")
             "mint" 5)
    = EvEncode ["mint"] :: rest.
Proof.
  apply (rag_probe_means_retrieval_is_attempted
           (startup_with (client_with docs_collection))); reflexivity.
Defined.

(** ** Metadata that is present, and records that are incomplete *)

(** X16: a title and a url that the metadata of a snippet holds as strings
    are surfaced unchanged in the source at the snippet's position. *)
Theorem present_title_and_url_pass_through w q t docs r i d m :
  semantic_search w q 5 = (t, Ok docs) ->
  outcome (generate_response w q) = Ok r ->
  docs !! i = Some d ->
  metadata d = Some m ->
  exists s, sources r !! i = Some s
    /\ (forall x, m !! "title" = Some (VStr x) -> title s = x)
    /\ (forall x, m !! "url" = Some (VStr x) -> url s = x).
Proof.
  intros Hs Hr Hd Hm.
  assert (Hne : docs <> []) by (intros ->; discriminate Hd).
  destruct (generate_response_ok_inv w q t docs r Hs Hne Hr)
    as (cp & context & Hc & _).
  apply collect_context_inv in Hc as (_ & new & Hnew & Hall).
  simpl in Hnew. subst new.
  destruct (Forall2_lookup_l _ _ _ _ _ Hall Hd)
    as (s & Hsrc & m' & Hm' & Ht & Hu & _).
  rewrite Hm in Hm'. injection Hm' as <-.
  exists s. split; [exact Hsrc|]. split; intros x Hx.
  - rewrite Hx in Ht. injection Ht as ->. reflexivity.
  - rewrite Hx in Hu. injection Hu as ->. reflexivity.
Qed.

Lemma present_title_and_url_pass_through_witness :
  exists s,
    sources (rag_response w_rag "mint" "Use the /mint endpoint"
               [ {| title := "Minting Guide";
                    url := "https://docs.crossmint.com/minting";
                    relevance_score := 0.91%float |};
                 {| title := "Crossmint Documentation";
                    url := "https://docs.crossmint.com";
                    relevance_score := 0.77%float |} ]) !! 0%nat = Some s
    /\ (forall x, minting_guide !! "title" = Some (VStr x) -> title s = x)
    /\ (forall x, minting_guide !! "url" = Some (VStr x) -> url s = x).
Proof.
  apply (present_title_and_url_pass_through w_rag "mint"
           [EvEncode ["mint"];
            EvQuery [[0.25%float; 0.5%float]] 5 include_fields]
           (zip_docs [Some "Mint with the API."; Some "See the reference."]
              [Some minting_guide; Some untitled_chunk]
              [0.09%float; 0.23%float])
           _ 0%nat
           {| content := Some "Mint with the API.";
              metadata := Some minting_guide; similarity := 0.91%float |});
    reflexivity.
Defined.

Lemma collect_context_missing_metadata docs : forall cp s,
  Exists (fun d => metadata d = None) docs ->
  exists e, collect_context docs cp s = Raise e.
Proof.
  induction docs as [|d rest IH]; intros cp s Hex.
  - inversion Hex.
  - simpl. destruct (metadata d) as [m|] eqn:Hm; simpl; [|eauto].
    destruct (new_Source _ _ _) as [src|e]; simpl; [|eauto].
    apply IH. inversion Hex as [? ? Hd|? ? Hrest]; [congruence|exact Hrest].
Qed.

Lemma join_missing_text sep parts :
  Exists (fun p => p = None) parts -> exists e, join sep parts = Raise e.
Proof.
  intros Hex. unfold join.
  assert (H : forall i, exists j, first_none parts i = Some j).
  { induction Hex as [p rest ->|p rest _ IH]; intros i; simpl; [eauto|].
    destruct p; [apply IH|eauto]. }
  destruct (H 0%nat) as [j ->]. eauto.
Qed.

(** X17: an incomplete record fails the whole request.  When a retrieved
    snippet has no metadata mapping, or no document text, a validated
    request is answered with a 500 whose detail begins
    "Error processing query: ", after the retrieval calls alone. *)
Theorem incomplete_record_fails_the_request w request t docs :
  truthy (strip (query request)) = true ->
  env_missing w "OPENAI_API_KEY" = false ->
  semantic_search w (strip (query request)) 5 = (t, Ok docs) ->
  Exists (fun d => metadata d = None \/ content d = None) docs ->
  exists e,
    ask_question w request
    = (t, HTTPException 500 ("Error processing query: " +:+ exn_str e)).
Proof.
  intros Hq Hk Hs Hex.
  assert (Hne : docs <> []) by (intros ->; inversion Hex).
  rewrite (ask_question_validated w request Hq Hk).
  destruct (collect_context docs [] []) as [[cp srcs]|e] eqn:Hc.
  - assert (Hj : exists e, join (nl +:+ nl) cp = Raise e).
    { apply join_missing_text.
      pose proof (collect_context_inv docs [] [] cp srcs Hc) as (-> & new & _ & Hall).
      simpl. clear -Hex Hall Hc.
      apply Exists_exists in Hex as (d & Hin & [Hm|Hcont]).
      - exfalso.
        destruct (collect_context_missing_metadata docs [] [])
          as [e He]; [|congruence].
        apply Exists_exists. eauto.
      - apply Exists_exists. exists (content d). split; [|exact Hcont].
        apply list_elem_of_fmap. eauto. }
    destruct Hj as [e Hj].
    rewrite (generate_response_join_raise w _ t docs cp srcs e Hs Hne Hc Hj).
    eauto.
  - rewrite (generate_response_collect_raise w _ t docs e Hs Hne Hc). eauto.
Qed.

Lemma incomplete_record_fails_the_request_witness :
  exists e,
    ask_question w_bare nft_question
    = ([EvEncode ["How do I create an NFT?"];
        EvQuery [[0.25%float; 0.5%float]] 5 include_fields],
       HTTPException 500 ("Error processing query: " +:+ exn_str e)).
Proof.
  apply (incomplete_record_fails_the_request w_bare nft_question _
           [ {| content := Some "Mint with the API."; metadata := None;
                similarity := 0.91%float |} ]);
    try reflexivity.
  constructor. left. reflexivity.
Defined.

(** ** The credential check *)

(** X18: an empty credential counts as a missing one.  A request with a
    non-blank query is answered with the 500 "OpenAI API key not
    configured" exactly when OPENAI_API_KEY is unset or set to the empty
    string. *)
Theorem empty_credential_is_missing w request :
  truthy (strip (query request)) = true ->
  (snd (ask_question w request)
   = HTTPException 500 "OpenAI API key not configured"
   <-> getenv w "OPENAI_API_KEY" = None
       \/ getenv w "OPENAI_API_KEY" = Some "").
Proof.
  intros Hq.
  destruct (env_missing w "OPENAI_API_KEY") eqn:Hk.
  - assert (Ha : ask_question w request
                 = ([], HTTPException 500 "OpenAI API key not configured"))
      by (unfold ask_question; rewrite Hq, Hk; reflexivity).
    rewrite Ha. split; [intros _|reflexivity].
    unfold env_missing in Hk.
    destruct (getenv w "OPENAI_API_KEY") as [[|c v]|]; auto. discriminate Hk.
  - rewrite (ask_question_validated w request Hq Hk).
    unfold env_missing in Hk. split.
    + destruct (generate_response w _) as [t [r|e]]; simpl; discriminate.
    + intros [Hn|Hn]; rewrite Hn in Hk; discriminate Hk.
Qed.

Lemma empty_credential_is_missing_witness :
  snd (ask_question w_empty_key nft_question)
  = HTTPException 500 "OpenAI API key not configured".
Proof.
  apply (proj2 (empty_credential_is_missing w_empty_key nft_question eq_refl)).
  right. reflexivity.
Defined.
